(** * TutorialMaker CI driver: process test orchestrator

    A shallow embedding of [Scripts/run_tutorial_tests_ci.py]: the class
    [TutorialTestRunner] (two supervised subprocess runs per locale, the
    per-locale verdict, the batch loop and the report) and the command-line
    driver [main].

    Modelling conventions.
    - Clock readings and elapsed times are exact rationals [Q]. The
      success rate is computed in binary64, with Rocq's primitive floats,
      as the driver computes it; a float inside a JSON value is the
      rational it stands for.
    - Python [str] is a byte string holding the UTF-8 encoding; substring
      tests on UTF-8 agree with substring tests on code points.
    - A Python [dict] is an insertion-ordered association list with unique
      keys ([dict_set] overwrites in place, as Python does).
    - The filesystem is a finite map from paths to files; paths are
      strings, and a locale code is taken to be a plain file-name
      component.
    - The external application is opaque: each subprocess is described by
      what the supervising loop observes of it (poll results, clock
      readings, lines read, behaviour on signals) and by what it does to
      the result path. Whatever else it writes (its settings, its logs)
      is outside the model, and nothing is stated about it.
    - Every read of a child's output returns, with a line, with nothing or
      with an error: a read that blocks forever is outside the model, so
      what is stated about a call is stated about a call that returns.
    - Effects are threaded through a state-and-exception monad; the state
      survives a raised exception, as in Python.
    - Console output ([print]) is not modelled, except for the faults that
      formatting the printed values can raise.
    - Signalling and waiting for a child ([terminate], [kill], [wait]) are
      taken not to fault. *)

From Stdlib Require Import ZArith QArith Qabs String Ascii List Bool Lia DecimalString.
From Stdlib Require Import Floats Uint63.
From stdpp Require Import base option gmap strings list fin_maps.
Import ListNotations.

Set Warnings "-register-all".

Local Open Scope Z_scope.
Local Open Scope string_scope.
Local Open Scope list_scope.

(** ** Python values *)

Module Py.

(** The JSON-representable fragment of Python values that verdicts hold. *)
Inductive value : Type :=
| VNone
| VBool (b : bool)
| VInt (z : Z)
| VFloat (q : Q)
| VStr (s : string)
| VList (l : list value)
| VDict (d : list (string * value)).

(** [dict]: insertion-ordered, one entry per key. *)
Definition dict (V : Type) : Type := list (string * V).

Fixpoint dict_get {V} (k : string) (d : dict V) : option V :=
  match d with
  | [] => None
  | (k', v) :: d' => if String.eqb k k' then Some v else dict_get k d'
  end.

(** [d[k] = v]: an existing key keeps its position, a new key goes last. *)
Fixpoint dict_set {V} (k : string) (v : V) (d : dict V) : dict V :=
  match d with
  | [] => [(k, v)]
  | (k', v') :: d' =>
      if String.eqb k k' then (k, v) :: d' else (k', v') :: dict_set k v d'
  end.

Definition dict_keys {V} (d : dict V) : list string := map fst d.
Definition dict_values {V} (d : dict V) : list V := map snd d.

(** [r.get(k)]: [None] when the key is missing. *)
Definition get (k : string) (d : dict value) : value :=
  match dict_get k d with Some v => v | None => VNone end.

(** [v == s] for a string literal [s]. *)
Definition eq_str (v : value) (s : string) : bool :=
  match v with VStr s' => String.eqb s' s | _ => false end.

(** [needle in hay] on strings. *)
Fixpoint contains (needle hay : string) : bool :=
  String.prefix needle hay
  || match hay with
     | EmptyString => false
     | String _ hay' => contains needle hay'
     end.

(** [s.replace('-', '_')]. *)
Fixpoint replace_dash (s : string) : string :=
  match s with
  | EmptyString => EmptyString
  | String c s' =>
      String (if Ascii.eqb c "-"%char then "_"%char else c) (replace_dash s')
  end.

(** A string from its bytes. *)
Definition of_bytes (l : list nat) : string :=
  fold_right (fun n s => String (ascii_of_nat n) s) EmptyString l.

(** The characters [str.isspace()] accepts, which [str.strip()] removes, in
    UTF-8: U+0009..U+000D, U+001C..U+0020, U+0085, U+00A0, U+1680,
    U+2000..U+200A, U+2028, U+2029, U+202F, U+205F, U+3000. *)
Definition whitespace : list string :=
  map of_bytes
    [[9]; [10]; [11]; [12]; [13]; [28]; [29]; [30]; [31]; [32];
     [194; 133]; [194; 160]; [225; 154; 128];
     [226; 128; 128]; [226; 128; 129]; [226; 128; 130]; [226; 128; 131];
     [226; 128; 132]; [226; 128; 133]; [226; 128; 134]; [226; 128; 135];
     [226; 128; 136]; [226; 128; 137]; [226; 128; 138];
     [226; 128; 168]; [226; 128; 169]; [226; 128; 175];
     [226; 129; 159]; [227; 128; 128]]%nat.

Definition reverse (s : string) : string :=
  string_of_list_ascii (List.rev (list_ascii_of_string s)).

(** [s] without its prefix [p], if it has it. *)
Fixpoint drop_prefix (p s : string) : option string :=
  match p, s with
  | EmptyString, _ => Some s
  | String a p', String b s' => if Ascii.eqb a b then drop_prefix p' s' else None
  | String _ _, EmptyString => None
  end.

(** [s] without one leading character out of [chars]. *)
Fixpoint drop_one (chars : list string) (s : string) : option string :=
  match chars with
  | [] => None
  | c :: rest =>
      match drop_prefix c s with
      | Some s' => Some s'
      | None => drop_one rest s
      end
  end.

(** Leading characters out of [chars] removed, at most [fuel] of them. *)
Fixpoint lstrip_chars (chars : list string) (fuel : nat) (s : string) : string :=
  match fuel with
  | O => s
  | S fuel' =>
      match drop_one chars s with
      | Some s' => lstrip_chars chars fuel' s'
      | None => s
      end
  end.

Definition lstrip (s : string) : string :=
  lstrip_chars whitespace (String.length s) s.

Definition rstrip (s : string) : string :=
  reverse (lstrip_chars (map reverse whitespace) (String.length s) (reverse s)).

(** [s.strip()]. *)
Definition strip (s : string) : string := rstrip (lstrip s).

(** [str(n)] for an [int]. *)
Definition str_of_Z (z : Z) : string := NilZero.string_of_int (Z.to_int z).

(** [str(x)] for [x : Optional[int]], as an f-string renders [returncode]. *)
Definition str_of_returncode (rc : option Z) : string :=
  match rc with Some z => str_of_Z z | None => "None" end.

Definition of_returncode (rc : option Z) : value :=
  match rc with Some z => VInt z | None => VNone end.

End Py.

(** ** Effects: state that survives exceptions *)

(** Python exceptions: ordinary [Exception]s carry their message [str(e)];
    [SystemExit] (raised by [sys.exit]) is not an [Exception], so
    [except Exception] lets it through while a bare [except:] stops it. *)
Inductive exn : Type :=
| Exception (msg : string)
| SystemExit (code : Z).

(** What a file holds, as far as the driver can tell: the outcome of
    [open] + [json.load] on it. *)
Inductive load_outcome : Type :=
| LoadRaises (msg : string)
| LoadOk (v : Py.value).

Inductive file : Type :=
| Script                      (* a generated transient script *)
| Data (c : load_outcome)     (* a result artifact or report *)
| Other.                      (* anything else, e.g. the executable *)

(** Observable actions of the driver on its environment. *)
Inductive action : Type :=
| ACreate (path : string)
| ASpawn (cmd : list string)
| ASleep (secs : Q)
| ATerminate
| AKill
| AWaitTimeout (secs : Z)
| AWait
| AUnlink (path : string)
| AExists (path : string) (found : bool)       (* [Path.exists()] *)
| ALoad (path : string) (c : load_outcome)     (* [open] + [json.load] *)
| AWriteReport (path : string).

Record world : Type := World {
  fs : gmap string file;
  trace : list action
}.

Inductive res (A : Type) : Type :=
| Ret (a : A)
| Raise (e : exn).
Arguments Ret {A} a.
Arguments Raise {A} e.

Definition M (A : Type) : Type := world -> res A * world.

Definition ret {A} (a : A) : M A := fun w => (Ret a, w).
Definition raise {A} (e : exn) : M A := fun w => (Raise e, w).

Definition bind {A B} (c : M A) (k : A -> M B) : M B :=
  fun w =>
    match c w with
    | (Ret a, w') => k a w'
    | (Raise e, w') => (Raise e, w')
    end.

Notation "x <-- c ;; k" := (bind c (fun x => k))
  (at level 100, c at next level, right associativity).
Notation "c ;;; k" := (bind c (fun _ => k))
  (at level 100, right associativity).

(** [try: c except Exception as e: h(str(e))]. *)
Definition try_except {A} (c : M A) (h : string -> M A) : M A :=
  fun w =>
    match c w with
    | (Raise (Exception msg), w') => h msg w'
    | r => r
    end.

(** [try: c except: h] (bare [except], catches everything). *)
Definition try_except_all {A} (c : M A) (h : M A) : M A :=
  fun w =>
    match c w with
    | (Raise _, w') => h w'
    | r => r
    end.

(** [try: c finally: f]; an exception out of [f] replaces the outcome. *)
Definition try_finally {A} (c : M A) (f : M unit) : M A :=
  fun w =>
    match c w with
    | (r, w') =>
        match f w' with
        | (Ret _, w'') => (r, w'')
        | (Raise e, w'') => (Raise e, w'')
        end
    end.

Definition emit (a : action) : M unit :=
  fun w => (Ret tt, World (fs w) (trace w ++ [a])).

Definition get_fs : M (gmap string file) := fun w => (Ret (fs w), w).
Definition set_fs (f : gmap string file) : M unit :=
  fun w => (Ret tt, World f (trace w)).

(** ** What the environment does *)

(** One [readline] on the child's output pipe. *)
Inductive read_outcome : Type :=
| ReadOk (line : string)      (* the empty string is "nothing to read" *)
| ReadRaises.

(** One iteration of a supervision loop in which [poll()] found the child
    still running: the clock reading taken for the elapsed-time test and
    what the following [readline] did. *)
Record tick : Type := Tick { now : Q; rd : read_outcome }.

(** The child during a bounded wait for its exit. *)
Inductive grace : Type :=
| ExitsInTime (rc : Z)
| StaysAlive (rc_killed : Z).   (* exit code seen after [kill] *)

(** A spawned child as the supervisor observes it. [p_ticks] are the
    iterations during which the child is still running; once they are
    used up [poll()] reports [p_rc]. *)
Record proc : Type := Proc {
  p_start : Q;           (* [time.time()] taken before the spawn *)
  p_ticks : list tick;
  p_rc : Z;
  p_grace : grace;
  p_end : Q              (* [time.time()] taken after the loop *)
}.

Inductive spawn : Type :=
| SpawnRaises (msg : string)
| Spawned (p : proc).

(** [tempfile.NamedTemporaryFile(delete=False)] followed by [write]: the
    path of the written file, or a fault, possibly after the file came
    into existence. *)
Inductive create : Type :=
| CreateOk (path : string)
| CreateRaises (msg : string) (left_behind : option string).

(** What the execute child does to the result path. *)
Inductive fs_effect : Type :=
| Untouched
| Leaves (c : load_outcome)
| Removes.

(** Everything the environment decides during one locale's job. *)
Record job : Type := Job {
  j_cfg_script : create;
  j_cfg : spawn;
  j_cfg_unlink : bool;      (* does [os.unlink] succeed *)
  j_run_script : create;
  j_run : spawn;
  j_artifact : fs_effect;
  j_run_unlink : bool
}.

Definition apply_effect (path : string) (e : fs_effect)
    (f : gmap string file) : gmap string file :=
  match e with
  | Untouched => f
  | Leaves c => <[path := Data c]> f
  | Removes => delete path f
  end.

(** Creation of a transient script. *)
Definition create_script (c : create) : M string :=
  match c with
  | CreateOk path =>
      f <-- get_fs ;; set_fs (<[path := Script]> f) ;;; emit (ACreate path) ;;; ret path
  | CreateRaises msg None => raise (Exception msg)
  | CreateRaises msg (Some path) =>
      f <-- get_fs ;; set_fs (<[path := Script]> f) ;;; emit (ACreate path) ;;;
      raise (Exception msg)
  end.

(** [os.unlink(path)]. *)
Definition unlink (ok : bool) (path : string) : M unit :=
  emit (AUnlink path) ;;;
  f <-- get_fs ;;
  match f !! path with
  | None => raise (Exception "FileNotFoundError")
  | Some _ =>
      if ok then set_fs (delete path f)
      else raise (Exception "PermissionError")
  end.

(** [subprocess.Popen(cmd, ...)]. *)
Definition Popen (cmd : list string) (s : spawn) : M proc :=
  emit (ASpawn cmd) ;;;
  match s with
  | SpawnRaises msg => raise (Exception msg)
  | Spawned p => ret p
  end.

(** [Path.exists()] and [open] + [json.load]. *)
Definition path_exists (path : string) : M bool :=
  f <-- get_fs ;;
  let found := bool_decide (is_Some (f !! path)) in
  emit (AExists path found) ;;; ret found.

(** What [open] + [json.load] make of whatever is at a path. *)
Definition load_of (o : option file) : load_outcome :=
  match o with
  | Some (Data c) => c
  | Some Script => LoadRaises "JSONDecodeError"
  | Some Other => LoadRaises "JSONDecodeError"
  | None => LoadRaises "FileNotFoundError"
  end.

Definition json_load (path : string) : M Py.value :=
  f <-- get_fs ;;
  emit (ALoad path (load_of (f !! path))) ;;;
  match load_of (f !! path) with
  | LoadOk v => ret v
  | LoadRaises msg => raise (Exception msg)
  end.

(** The result of the driver's arithmetic: an [int], or a [float] as the
    binary64 value that it is. *)
Inductive number : Type :=
| NInt (z : Z)
| NFloat (f : float).

(** [float(z)] for an [int] below 2^53, where the conversion is exact. *)
Definition float_of_int (z : Z) : float := PrimFloat.of_uint63 (Uint63.of_Z z).

(** [x == k] and [x >= k] for an [int] literal [k]. *)
Definition num_eqb (x : number) (k : Z) : bool :=
  match x with
  | NInt z => Z.eqb z k
  | NFloat f => PrimFloat.eqb f (float_of_int k)
  end.

Definition num_geb (x : number) (k : Z) : bool :=
  match x with
  | NInt z => Z.leb k z
  | NFloat f => PrimFloat.leb (float_of_int k) f
  end.

(** The rational a double stands for (zero for the infinities and NaN,
    which a quotient of two counts times 100 never is). *)
Definition Q_of_float (f : float) : Q :=
  match Prim2SF f with
  | S754_finite s m e =>
      let v := (inject_Z (Z.pos m) * Qpower 2 e)%Q in
      if s then Qopp v else v
  | _ => 0%Q
  end.

(** A number as a JSON value. *)
Definition num_value (x : number) : Py.value :=
  match x with
  | NInt z => Py.VInt z
  | NFloat f => Py.VFloat (Q_of_float f)
  end.

(** [a / b] on [int]s: true division, correctly rounded to binary64. For
    operands below 2^53 that is the quotient of the two doubles. *)
Definition truediv (a b : Z) : M float :=
  if Z.eqb b 0 then raise (Exception "division by zero")
  else ret (PrimFloat.div (float_of_int a) (float_of_int b)).

(** [successful_tests / total_tests * 100]. *)
Definition float_rate (s n : Z) : float :=
  PrimFloat.mul (PrimFloat.div (float_of_int s) (float_of_int n)) 100%float.

(** [obj[k] = v] on a freshly loaded JSON value; only a [dict] accepts a
    string key, every other value raises [TypeError]. *)
Definition setitem (obj : Py.value) (k : string) (v : Py.value)
    : M (Py.dict Py.value) :=
  match obj with
  | Py.VDict d => ret (Py.dict_set k v d)
  | Py.VList _ => raise (Exception "list indices must be integers or slices, not str")
  | Py.VNone => raise (Exception "'NoneType' object does not support item assignment")
  | Py.VBool _ => raise (Exception "'bool' object does not support item assignment")
  | Py.VInt _ => raise (Exception "'int' object does not support item assignment")
  | Py.VFloat _ => raise (Exception "'float' object does not support item assignment")
  | Py.VStr _ => raise (Exception "'str' object does not support item assignment")
  end.

(** [f"{x:.1f}"]: only numbers take the format. *)
Definition format_1f (x : Py.value) : M unit :=
  match x with
  | Py.VInt _ | Py.VFloat _ | Py.VBool _ => ret tt
  | Py.VStr _ => raise (Exception "Unknown format code 'f' for object of type 'str'")
  | Py.VNone => raise (Exception "unsupported format string passed to NoneType.__format__")
  | Py.VList _ => raise (Exception "unsupported format string passed to list.__format__")
  | Py.VDict _ => raise (Exception "unsupported format string passed to dict.__format__")
  end.

(** [icons.get(status, '?')] followed by [status.upper()]: the lookup needs
    a hashable key, the method a [str]. *)
Definition icon_and_upper (status : Py.value) : M unit :=
  match status with
  | Py.VStr _ => ret tt
  | Py.VList _ => raise (Exception "unhashable type: 'list'")
  | Py.VDict _ => raise (Exception "unhashable type: 'dict'")
  | Py.VNone => raise (Exception "'NoneType' object has no attribute 'upper'")
  | Py.VBool _ => raise (Exception "'bool' object has no attribute 'upper'")
  | Py.VInt _ => raise (Exception "'int' object has no attribute 'upper'")
  | Py.VFloat _ => raise (Exception "'float' object has no attribute 'upper'")
  end.

(** [r.get(k, default)]. *)
Definition get_default (k : string) (default : Py.value) (d : Py.dict Py.value)
    : Py.value :=
  match Py.dict_get k d with Some v => v | None => default end.

Definition Qgt_bool (a b : Q) : bool := negb (Qle_bool a b).

Definition nonempty (s : string) : bool :=
  match s with EmptyString => false | _ => true end.

(** ** class TutorialTestRunner *)

Definition DEFAULT_LANGUAGES : list string := ["pt-BR"; "es-419"; "fr-FR"].

(** A verdict is the [dict] a locale's test returns. *)
Abbreviation verdict := (Py.dict Py.value).

(** Paths are strings, taken as [pathlib] would print them. *)
Record runner : Type := Runner {
  slicer_executable : string;
  tutorial_name : string;
  output_dir : string
}.

(** [self.output_dir / name]. *)
Definition in_output_dir (self : runner) (name : string) : string :=
  output_dir self ++ "/" ++ name.

Definition result_file (self : runner) (language_code : string) : string :=
  in_output_dir self ("result_" ++ Py.replace_dash language_code ++ ".json").

Definition report_file (self : runner) : string :=
  in_output_dir self "test_report.json".

(** The two evidence tests of [_configure_language] on the captured lines. *)
Definition config_found (output_lines : list string) : bool :=
  existsb (fun line => Py.contains "pt-BR" line
                       && Py.contains "i18n habilitado: True" line) output_lines.

Definition success_msg_found (output_lines : list string) : bool :=
  existsb (fun line => Py.contains "✅" line
                       && Py.contains "Configuração" line) output_lines.

Section Runner.

Variable self : runner.
(** The module-level [SLICER_TIMEOUT], which [main] overwrites. *)
Variable SLICER_TIMEOUT : Z.
(** [platform.system()]. *)
Variable platform_system : string.

(** How the supervision loop of [_configure_language] ends. *)
Inductive cfg_loop_end : Type :=
| CfgExited (output_lines : list string)      (* [poll()] saw the exit *)
| CfgReadBroke (output_lines : list string)   (* [readline] raised *)
| CfgTimedOut.                                (* [return False] *)

Fixpoint configure_loop (start : Q) (p : proc) (ticks : list tick)
    (output_lines : list string) : M cfg_loop_end :=
  match ticks with
  | [] => ret (CfgExited output_lines)
  | t :: ticks' =>
      let elapsed := (now t - start)%Q in
      if Qgt_bool elapsed (inject_Z 30) then
        emit ATerminate ;;;
        emit (ASleep 2) ;;;
        match p_grace p with
        | ExitsInTime _ => ret CfgTimedOut
        | StaysAlive _ => emit AKill ;;; ret CfgTimedOut
        end
      else
        match rd t with
        | ReadOk line =>
            if nonempty line then
              configure_loop start p ticks' (output_lines ++ [Py.strip line])
            else
              emit (ASleep (1 # 10)) ;;;
              configure_loop start p ticks' output_lines
        | ReadRaises => ret (CfgReadBroke output_lines)
        end
  end.

(** [process.wait(timeout=5)], with [kill] and [wait] on expiry; yields
    [process.returncode]. *)
Definition wait_for_exit (p : proc) (exited : bool) : M Z :=
  emit (AWaitTimeout 5) ;;;
  if exited then ret (p_rc p)
  else
    match p_grace p with
    | ExitsInTime rc => ret rc
    | StaysAlive rc => emit AKill ;;; emit AWait ;;; ret rc
    end.

Definition _configure_language (language_code : string) (j : job) : M bool :=
  config_script <-- create_script (j_cfg_script j) ;;
  try_finally
    (try_except
       (let cmd := [slicer_executable self; "--no-splash"; "--python-script";
                    config_script] in
        process <-- Popen cmd (j_cfg j) ;;
        e <-- configure_loop (p_start process) process (p_ticks process) [] ;;
        match e with
        | CfgTimedOut => ret false
        | CfgExited output_lines | CfgReadBroke output_lines =>
            returncode <-- wait_for_exit process
                             (match e with CfgExited _ => true | _ => false end) ;;
            let success := Z.eqb returncode 0 in
            if success then ret true
            else if config_found output_lines || success_msg_found output_lines
                 then ret true
                 else ret false
        end)
       (fun _ => ret false))
    (try_except_all (unlink (j_cfg_unlink j) config_script) (ret tt)).

Fixpoint tutorial_loop (start : Q) (p : proc) (ticks : list tick)
    (output_lines : list string) : M (option Z * list string) :=
  match ticks with
  | [] => ret (Some (p_rc p), output_lines)
  | t :: ticks' =>
      let elapsed := (now t - start)%Q in
      if Qgt_bool elapsed (inject_Z SLICER_TIMEOUT) then
        emit ATerminate ;;;
        emit (AWaitTimeout 5) ;;;
        match p_grace p with
        | ExitsInTime rc => ret (Some rc, output_lines)
        | StaysAlive rc => emit AKill ;;; emit AWait ;;; ret (Some rc, output_lines)
        end
      else
        match rd t with
        | ReadOk line =>
            if nonempty line then
              tutorial_loop start p ticks' (output_lines ++ [Py.strip line])
            else
              emit (ASleep (1 # 10)) ;;;
              tutorial_loop start p ticks' output_lines
        | ReadRaises => ret (None, output_lines)
        end
  end.

Definition _run_tutorial_test (language_code : string) (j : job) : M verdict :=
  test_script <-- create_script (j_run_script j) ;;
  try_finally
    (try_except
       (let cmd := [slicer_executable self; "--no-splash"]
                   ++ (if String.eqb platform_system "Windows" then []
                       else ["--no-main-window"; "--disable-cli-modules"])
                   ++ ["--python-script"; test_script] in
        process <-- Popen cmd (j_run j) ;;
        r <-- tutorial_loop (p_start process) process (p_ticks process) [] ;;
        let '(returncode, output_lines) := r in
        let return_code := Py.of_returncode returncode in
        let execution_time := (p_end process - p_start process)%Q in
        f <-- get_fs ;;
        set_fs (apply_effect (result_file self language_code) (j_artifact j) f) ;;;
        present <-- path_exists (result_file self language_code) ;;
        if present then
          result_data <-- json_load (result_file self language_code) ;;
          result_data <-- setitem result_data "execution_time"
                            (Py.VFloat execution_time) ;;
          let result_data := Py.dict_set "return_code" return_code result_data in
          let result_data := Py.dict_set "slicer_output"
                               (Py.VList (map Py.VStr output_lines)) result_data in
          ret result_data
        else
          ret [("language", Py.VStr language_code);
               ("tutorial", Py.VStr (tutorial_name self));
               ("status", Py.VStr "error");
               ("error", Py.VStr ("No result file found. Return code: "
                                  ++ Py.str_of_returncode returncode));
               ("slicer_output", Py.VList (map Py.VStr output_lines));
               ("execution_time", Py.VFloat execution_time);
               ("return_code", return_code)])
       (fun e =>
          ret [("language", Py.VStr language_code);
               ("tutorial", Py.VStr (tutorial_name self));
               ("status", Py.VStr "error");
               ("error", Py.VStr e);
               ("execution_time", Py.VInt 0)]))
    (try_except_all (unlink (j_run_unlink j) test_script) (ret tt)).

Definition run_test_for_language (language_code : string) (j : job) : M verdict :=
  try_except
    (config_success <-- _configure_language language_code j ;;
     if negb config_success then
       ret [("language", Py.VStr language_code);
            ("tutorial", Py.VStr (tutorial_name self));
            ("status", Py.VStr "error");
            ("error", Py.VStr "Falha na configuração de linguagem");
            ("execution_time", Py.VInt 0)]
     else _run_tutorial_test language_code j)
    (fun e =>
       ret [("language", Py.VStr language_code);
            ("tutorial", Py.VStr (tutorial_name self));
            ("status", Py.VStr "exception");
            ("error", Py.VStr e);
            ("execution_time", Py.VInt 0)]).

(** The console line for one result in [run_all_tests]: the elapsed time is
    formatted for the statuses "success" and "timeout" only. *)
Definition log_result (result : verdict) : M unit :=
  let status := get_default "status" (Py.VStr "unknown") result in
  let exec_time := get_default "execution_time" (Py.VInt 0) result in
  if Py.eq_str status "success" then format_1f exec_time
  else if Py.eq_str status "timeout" then format_1f exec_time
  else ret tt.

(** The [for lang in language_codes] loop; [jobs i] is what the
    environment does during the [i]-th iteration. The handler overwrites
    whatever the body stored under [lang] before it faulted. *)
Fixpoint run_all_loop (jobs : nat -> job) (i : nat) (language_codes : list string)
    (results : Py.dict verdict) : M (Py.dict verdict) :=
  match language_codes with
  | [] => ret results
  | lang :: rest =>
      results' <--
        try_except
          (result <-- run_test_for_language lang (jobs i) ;;
           log_result result ;;;
           ret (Py.dict_set lang result results))
          (fun e =>
             ret (Py.dict_set lang
                    [("language", Py.VStr lang);
                     ("status", Py.VStr "exception");
                     ("error", Py.VStr e)] results)) ;;
      run_all_loop jobs (S i) rest results'
  end.

Definition run_all_tests (language_codes : option (list string))
    (jobs : nat -> job) : M (Py.dict verdict) :=
  let language_codes :=
    match language_codes with None => DEFAULT_LANGUAGES | Some l => l end in
  run_all_loop jobs 0 language_codes [].

End Runner.

(** ** The report *)

Record summary : Type := Summary {
  total_tests : Z;
  successful_tests : Z;
  failed_tests : Z;
  success_rate : number
}.

Record report : Type := Report {
  r_tutorial : string;
  r_timestamp : Q;
  r_summary : summary;
  r_results : Py.dict verdict
}.

(** [sum(1 for r in results.values() if r.get('status') == 'success')]. *)
Definition count_success (results : Py.dict verdict) : Z :=
  fold_left Z.add
    (map (fun _ => 1)
         (List.filter (fun r => Py.eq_str (Py.get "status" r) "success")
                      (Py.dict_values results)))
    0.

(** The report as the JSON value that [json.dump] writes. *)
Definition report_value (r : report) : Py.value :=
  Py.VDict
    [("tutorial", Py.VStr (r_tutorial r));
     ("timestamp", Py.VFloat (r_timestamp r));
     ("summary",
       Py.VDict
         [("total_tests", Py.VInt (total_tests (r_summary r)));
          ("successful_tests", Py.VInt (successful_tests (r_summary r)));
          ("failed_tests", Py.VInt (failed_tests (r_summary r)));
          ("success_rate", num_value (success_rate (r_summary r)))]);
     ("results", Py.VDict (map (fun kv => (fst kv, Py.VDict (snd kv))) (r_results r)))].

(** How writing a file can go wrong: [open(path, 'w')] raises, and the
    path is as it was; or [open] has created or truncated the file and
    [json.dump] (or the flush on closing) raises, which leaves a file that
    is no JSON document. *)
Inductive write_fault : Type :=
| OpenRaises (msg : string)
| DumpRaises (msg : string).

Definition fault_message (wf : write_fault) : string :=
  match wf with OpenRaises msg => msg | DumpRaises msg => msg end.

(** [with open(path, 'w') as f: json.dump(v, f)]. *)
Definition write_json (path : string) (fault : option write_fault)
    (v : Py.value) : M unit :=
  emit (AWriteReport path) ;;;
  match fault with
  | Some (OpenRaises msg) => raise (Exception msg)
  | Some (DumpRaises msg) =>
      f <-- get_fs ;;
      set_fs (<[path := Data (LoadRaises "JSONDecodeError")]> f) ;;;
      raise (Exception msg)
  | None => f <-- get_fs ;; set_fs (<[path := Data (LoadOk v)]> f)
  end.

(** The console line for one result in [generate_report]. *)
Definition print_result (result : verdict) : M unit :=
  let status := get_default "status" (Py.VStr "unknown") result in
  let exec_time := get_default "execution_time" (Py.VInt 0) result in
  icon_and_upper status ;;;
  format_1f exec_time.

Fixpoint print_results (results : Py.dict verdict) : M unit :=
  match results with
  | [] => ret tt
  | (_, result) :: rest => print_result result ;;; print_results rest
  end.

Definition generate_report (self : runner) (results : Py.dict verdict)
    (clock : Q) (write_fault : option write_fault) : M report :=
  let total_tests := Z.of_nat (length results) in
  let successful_tests := count_success results in
  success_rate <--
    (if Z.ltb 0 total_tests
     then q <-- truediv successful_tests total_tests ;;
          ret (NFloat (PrimFloat.mul q 100%float))
     else ret (NInt 0)) ;;
  let report :=
    {| r_tutorial := tutorial_name self;
       r_timestamp := clock;
       r_summary :=
         {| total_tests := total_tests;
            successful_tests := successful_tests;
            failed_tests := total_tests - successful_tests;
            success_rate := success_rate |};
       r_results := results |} in
  write_json (report_file self) write_fault (report_value report) ;;;
  print_results results ;;;
  ret report.

(** ** The command-line driver *)

(** The namespace [parse_args] returns, defaults filled in. *)
Record args : Type := Args {
  slicer_path : string;
  tutorial : string;
  languages : list string;
  output : option string;
  timeout : Z
}.

(** What the environment decides during one run of [main]. *)
Record batch : Type := Batch {
  b_cwd : string;                 (* [Path.cwd()] *)
  b_mkdir : option string;        (* the error [mkdir] raises, if any *)
  b_platform : string;            (* [platform.system()] *)
  b_jobs : nat -> job;
  b_report_time : Q;
  b_report_write : option write_fault  (* how writing the report fails *)
}.

(** [TutorialTestRunner.__init__]. *)
Definition __init__ (slicer_executable : string) (tutorial_name : string)
    (output_dir : option string) (b : batch) : M runner :=
  let self :=
    {| slicer_executable := slicer_executable;
       tutorial_name := if nonempty tutorial_name then tutorial_name
                        else "TestTutorial";
       output_dir := match output_dir with
                     | Some d => if nonempty d then d else b_cwd b ++ "/test_outputs"
                     | None => b_cwd b ++ "/test_outputs"
                     end |} in
  match b_mkdir b with
  | Some msg => raise (Exception msg)
  | None => ret self
  end.

(** [main] from the point where [parser.parse_args()] has returned the
    namespace [a]. *)
Definition main (a : args) (b : batch) : M unit :=
  f <-- get_fs ;;
  if negb (bool_decide (is_Some (f !! slicer_path a))) then raise (SystemExit 1)
  else
    let SLICER_TIMEOUT := timeout a in
    runner <-- __init__ (slicer_path a) (tutorial a) (output a) b ;;
    try_except
      (results <-- run_all_tests runner SLICER_TIMEOUT (b_platform b)
                     (Some (languages a)) (b_jobs b) ;;
       report <-- generate_report runner results (b_report_time b)
                    (b_report_write b) ;;
       let success_rate := success_rate (r_summary report) in
       if num_eqb success_rate 100 then raise (SystemExit 0)
       else if num_geb success_rate 50 then raise (SystemExit 1)
       else raise (SystemExit 2))
      (fun _ => raise (SystemExit 3)).




(** The exit status of the interpreter: the [sys.exit] code, 1 after an
    uncaught exception (a traceback), 0 when [main] just returns. *)
Definition exit_status (r : res unit) : Z :=
  match r with
  | Ret _ => 0
  | Raise (SystemExit code) => code
  | Raise (Exception _) => 1
  end.

(** ** Vocabulary of the specification *)

(** The persistence-confirmation marker as the specification words it: the
    evidence pattern for the locale that was requested. *)
Definition spec_marker_for (language_code : string) (output_lines : list string)
    : bool :=
  existsb (fun line => Py.contains language_code line
                       && Py.contains "i18n habilitado: True" line) output_lines
  || success_msg_found output_lines.

(** "N entries of which S have status success". *)
Fixpoint successes (results : Py.dict verdict) : nat :=
  match results with
  | [] => 0
  | (_, r) :: rest =>
      (if Py.eq_str (Py.get "status" r) "success" then 1 else 0)%nat
      + successes rest
  end.

(** A verdict whose report line can be formatted: a string status and a
    numeric elapsed time. *)
Definition printable (result : verdict) : bool :=
  match get_default "status" (Py.VStr "unknown") result with
  | Py.VStr _ =>
      match get_default "execution_time" (Py.VInt 0) result with
      | Py.VInt _ | Py.VFloat _ | Py.VBool _ => true
      | _ => false
      end
  | _ => false
  end.

(** "success/total x 100 (0 when total = 0)". *)
Definition spec_rate (results : Py.dict verdict) : Q :=
  match length results with
  | O => 0
  | S _ => (inject_Z (Z.of_nat (successes results))
            / inject_Z (Z.of_nat (length results)) * 100)%Q
  end.

(** The rate as [generate_report] computes it on the two counts: in
    binary64, and the [int] 0 for the empty mapping. *)
Definition reported_rate (results : Py.dict verdict) : number :=
  if Z.ltb 0 (Z.of_nat (length results))
  then NFloat (float_rate (Z.of_nat (successes results))
                          (Z.of_nat (length results)))
  else NInt 0.

(** The rational a number stands for. *)
Definition num_Q (x : number) : Q :=
  match x with
  | NInt z => inject_Z z
  | NFloat f => Q_of_float f
  end.

(** The statuses a verdict may carry according to the specification, in the
    driver's vocabulary (both error kinds are spelled "error"). *)
Definition enumerated_status (v : Py.value) : Prop :=
  v = Py.VStr "success" \/ v = Py.VStr "error" \/ v = Py.VStr "timeout"
  \/ v = Py.VStr "exception".

(** "success requires an exit code of zero". *)
Definition success_requires_clean_exit (v : verdict) : Prop :=
  Py.get "status" v = Py.VStr "success" -> Py.get "return_code" v = Py.VInt 0.

(** "exactly one Verdict per element, preserving input order". *)
Definition one_verdict_per_element (language_codes : list string)
    (results : Py.dict verdict) : Prop :=
  length results = length language_codes /\ Py.dict_keys results = language_codes.

(** One more key, unless it is already there. *)
Definition add_key (seen : list string) (k : string) : list string :=
  if existsb (String.eqb k) seen then seen else seen ++ [k].

(** The distinct locale codes of a list, in order of first occurrence. *)
Definition first_occurrences (language_codes : list string) : list string :=
  fold_left add_key language_codes [].

(** "The transient script file the call created is absent when the call
    returns": [c] is the creation the call performed, [w'] the world it
    returned in. *)
Definition script_absent_after (c : create) (w' : world) : Prop :=
  forall path, c = CreateOk path -> fs w' !! path = None.

(** The filesystem at the moment [_run_tutorial_test] looks for the result
    artifact, when its script was created at [path] and the child ran. *)
Definition fs_at_check (self : runner) (language_code : string) (j : job)
    (w : world) (path : string) : gmap string file :=
  apply_effect (result_file self language_code) (j_artifact j)
               (<[path := Script]> (fs w)).

(** The lines a supervision loop captures when it reads all of [ticks]. *)
Fixpoint captured (ticks : list tick) : list string :=
  match ticks with
  | [] => []
  | t :: rest =>
      match rd t with
      | ReadOk line =>
          if nonempty line then Py.strip line :: captured rest else captured rest
      | ReadRaises => captured rest
      end
  end.

(** The verdicts of running the locales one after the other, each in the
    world the previous one left, and the world after the last. *)
Fixpoint run_each (self : runner) (T : Z) (pf : string) (jobs : nat -> job)
    (i : nat) (language_codes : list string) (w : world)
    : list verdict * world :=
  match language_codes with
  | [] => ([], w)
  | lang :: rest =>
      match run_test_for_language self T pf lang (jobs i) w with
      | (Ret v, w1) =>
          let '(vs, w') := run_each self T pf jobs (S i) rest w1 in
          (v :: vs, w')
      | (Raise _, w1) => ([], w1)
      end
  end.

(** [results[k] = v] for a pair. *)
Definition store (results : Py.dict verdict) (kv : string * verdict)
    : Py.dict verdict :=
  Py.dict_set (fst kv) (snd kv) results.

(** A verdict whose elapsed time is a number. *)
Definition numeric_time (result : verdict) : bool :=
  match get_default "execution_time" (Py.VInt 0) result with
  | Py.VInt _ | Py.VFloat _ | Py.VBool _ => true
  | _ => false
  end.

(** What the supervisor does once the budget is exceeded, and the exit
    code it ends up with. *)
Definition escalation (g : grace) : list action * Z :=
  match g with
  | ExitsInTime rc => ([ATerminate; AWaitTimeout 5], rc)
  | StaysAlive rc => ([ATerminate; AWaitTimeout 5; AKill; AWait], rc)
  end.

(** ** The exit decision in IEEE doubles

    The exit decision as a function of the two counts, in binary64 as
    the driver computes it, next to the same decision on the exact
    ratio. *)

(** The exit code [main] chooses from the counts, in doubles. *)
Definition float_exit (s n : Z) : Z :=
  if Z.ltb 0 n then
    if PrimFloat.eqb (float_rate s n) 100%float then 0
    else if PrimFloat.leb 50%float (float_rate s n) then 1 else 2
  else 2.

(** The same choice on the rational rate. *)
Definition rational_exit (s n : Z) : Z :=
  let rate := if Z.ltb 0 n then (inject_Z s / inject_Z n * 100)%Q else 0%Q in
  if Qeq_bool rate 100 then 0 else if Qle_bool 50 rate then 1 else 2.

Definition upto (n : nat) : list Z := map Z.of_nat (seq 0 (S n)).

(** Do the two agree for every batch of at most [n] locales? *)
Definition exits_agree_upto (n : nat) : bool :=
  forallb (fun t => forallb (fun s => Z.eqb (float_exit s t) (rational_exit s t))
                            (upto (Z.to_nat t)))
          (upto n).

(** How far the computed rate is from the exact one. *)
Definition rate_error (s n : Z) : Q :=
  Qabs (Q_of_float (float_rate s n) - inject_Z s / inject_Z n * 100).

(** Is the computed rate within 2^-46 of the exact one, equal to 100 only
    when all succeeded and at least 50 only when at least half did, for
    every batch of at most [n] locales? *)
Definition rates_agree_upto (n : nat) : bool :=
  forallb (fun t =>
             forallb (fun s =>
                        Z.eqb t 0
                        || (Qle_bool (rate_error s t) (1 # 2 ^ 46)
                            && Bool.eqb (num_eqb (NFloat (float_rate s t)) 100)
                                        (Z.eqb s t)
                            && Bool.eqb (num_geb (NFloat (float_rate s t)) 50)
                                        (Z.leb t (2 * s))))
                     (upto (Z.to_nat t)))
          (upto n).

(** The path a driver action creates, rewrites or removes. *)
Definition written (a : action) : option string :=
  match a with
  | ACreate path | AUnlink path | AWriteReport path => Some path
  | _ => None
  end.

(** ** Shapes of a supervised run *)

(** An iteration that neither exceeds the budget nor faults on reading. *)
Definition quiet (limit : Z) (start : Q) (t : tick) : Prop :=
  Qgt_bool (now t - start) (inject_Z limit) = false /\ rd t <> ReadRaises.

(** An iteration whose clock reading exceeds the budget. *)
Definition overrun (limit : Z) (start : Q) (t : tick) : Prop :=
  Qgt_bool (now t - start) (inject_Z limit) = true.

(** The pauses a loop takes over [ticks]: one per empty read. *)
Fixpoint idle_events (ticks : list tick) : list action :=
  match ticks with
  | [] => []
  | t :: rest =>
      match rd t with
      | ReadOk line =>
          if nonempty line then idle_events rest
          else ASleep (1 # 10) :: idle_events rest
      | ReadRaises => idle_events rest
      end
  end.

(** What configure does to a child that exceeds its 30 seconds. *)
Definition cfg_escalation (g : grace) : list action :=
  match g with
  | ExitsInTime _ => [ATerminate; ASleep 2]
  | StaysAlive _ => [ATerminate; ASleep 2; AKill]
  end.

(** The command line of the configure child and of the execute child. *)
Definition cfg_cmd (self : runner) (script : string) : list string :=
  [slicer_executable self; "--no-splash"; "--python-script"; script].

Definition run_cmd (self : runner) (platform_system script : string)
    : list string :=
  [slicer_executable self; "--no-splash"]
  ++ (if String.eqb platform_system "Windows" then []
      else ["--no-main-window"; "--disable-cli-modules"])
  ++ ["--python-script"; script].

(** The filesystem after the [finally] block tried to unlink [path]. *)
Definition after_unlink (ok : bool) (path : string) (f : gmap string file)
    : gmap string file :=
  match f !! path with
  | Some _ => if ok then delete path f else f
  | None => f
  end.

(** The verdicts [_run_tutorial_test] hands out. *)
Definition fault_verdict (self : runner) (language_code msg : string) : verdict :=
  [("language", Py.VStr language_code);
   ("tutorial", Py.VStr (tutorial_name self));
   ("status", Py.VStr "error");
   ("error", Py.VStr msg);
   ("execution_time", Py.VInt 0)].

Definition missing_verdict (self : runner) (language_code : string)
    (returncode : option Z) (output_lines : list string) (elapsed : Q) : verdict :=
  [("language", Py.VStr language_code);
   ("tutorial", Py.VStr (tutorial_name self));
   ("status", Py.VStr "error");
   ("error", Py.VStr ("No result file found. Return code: "
                      ++ Py.str_of_returncode returncode));
   ("slicer_output", Py.VList (map Py.VStr output_lines));
   ("execution_time", Py.VFloat elapsed);
   ("return_code", Py.of_returncode returncode)].

Definition merged_verdict (d : Py.dict Py.value) (returncode : option Z)
    (output_lines : list string) (elapsed : Q) : verdict :=
  Py.dict_set "slicer_output" (Py.VList (map Py.VStr output_lines))
    (Py.dict_set "return_code" (Py.of_returncode returncode)
       (Py.dict_set "execution_time" (Py.VFloat elapsed) d)).

(** The message of the [TypeError] that item assignment raises on a JSON
    value that is no object. *)
Definition not_a_dict_message (v : Py.value) : string :=
  match v with
  | Py.VDict _ => ""
  | Py.VList _ => "list indices must be integers or slices, not str"
  | Py.VNone => "'NoneType' object does not support item assignment"
  | Py.VBool _ => "'bool' object does not support item assignment"
  | Py.VInt _ => "'int' object does not support item assignment"
  | Py.VFloat _ => "'float' object does not support item assignment"
  | Py.VStr _ => "'str' object does not support item assignment"
  end.

(** The verdict for what is found at the result path. *)
Definition verdict_of_check (self : runner) (language_code : string)
    (found : option file) (returncode : option Z) (output_lines : list string)
    (elapsed : Q) : verdict :=
  match found with
  | None => missing_verdict self language_code returncode output_lines elapsed
  | Some _ =>
      match load_of found with
      | LoadRaises msg => fault_verdict self language_code msg
      | LoadOk (Py.VDict d) => merged_verdict d returncode output_lines elapsed
      | LoadOk v => fault_verdict self language_code (not_a_dict_message v)
      end
  end.

(** The reads of the result path that go with it. *)
Definition check_events (path : string) (found : option file) : list action :=
  match found with
  | None => [AExists path false]
  | Some _ => [AExists path true; ALoad path (load_of found)]
  end.

(** How many children a trace spawned. *)
Fixpoint spawns (tr : list action) : nat :=
  match tr with
  | [] => 0
  | ASpawn _ :: rest => S (spawns rest)
  | _ :: rest => spawns rest
  end.

(** The exit code seen after a bounded wait. *)
Definition grace_code (g : grace) : Z :=
  match g with ExitsInTime rc => rc | StaysAlive rc => rc end.

(** [process.returncode] once configure has waited for the child. *)
Definition cfg_returncode (p : proc) (e : cfg_loop_end) : Z :=
  match e with
  | CfgExited _ => p_rc p
  | _ => grace_code (p_grace p)
  end.

(** What configure answers for each way its loop can end. *)
Definition cfg_result (p : proc) (e : cfg_loop_end) : bool :=
  match e with
  | CfgTimedOut => false
  | CfgExited output_lines | CfgReadBroke output_lines =>
      Z.eqb (cfg_returncode p e) 0
      || config_found output_lines || success_msg_found output_lines
  end.

(** The waiting configure does after its loop. *)
Definition cfg_wait (p : proc) (e : cfg_loop_end) : list action :=
  match e with
  | CfgTimedOut => []
  | CfgExited _ => [AWaitTimeout 5]
  | CfgReadBroke _ =>
      AWaitTimeout 5
      :: match p_grace p with
         | ExitsInTime _ => []
         | StaysAlive _ => [AKill; AWait]
         end
  end.


(** A verdict whose status, as the report reads it, is a string. *)
Definition string_status (result : verdict) : bool :=
  match get_default "status" (Py.VStr "unknown") result with
  | Py.VStr _ => true
  | _ => false
  end.

(** The exit code [main] chooses, from the counts alone. *)
Definition exit_by_counts (s n : Z) : Z :=
  if Z.eqb n 0 then 2
  else if Z.eqb s n then 0
  else if Z.leb n (2 * s) then 1 else 2.

(** ** Concrete environments *)

Module Scenario.

Definition slicer : string := "/opt/Slicer/Slicer".
Definition self : runner := Runner slicer "TestTutorial" "/out".
Definition cfg_path : string := "/tmp/tmpcfg.py".
Definition run_path : string := "/tmp/tmprun.py".

(** A filesystem holding just the executable, and no action so far. *)
Definition w0 : world := World (<[slicer := Other]> ∅) [].

(** A child that prints [lines] and then exits with [rc] two seconds in. *)
Definition exits (rc : Z) (lines : list string) : proc :=
  Proc 0 (map (fun l => Tick 1 (ReadOk l)) lines) rc (ExitsInTime rc) 2.

(** A silent child still running 301 seconds in, surviving [terminate]. *)
Definition hangs : proc :=
  Proc 0 [Tick 1 (ReadOk ""); Tick 301 (ReadOk "")] 0 (StaysAlive (-9)) 306.

(** A silent child still running 31 seconds into the configure phase,
    surviving [terminate]. *)
Definition hangs_in_configure : proc :=
  Proc 0 [Tick 31 (ReadOk "")] 0 (StaysAlive (-9)) 33.

Definition job_of (cfg run : proc) (artifact : fs_effect) : job :=
  Job (CreateOk cfg_path) (Spawned cfg) true
      (CreateOk run_path) (Spawned run) artifact true.

(** The record the generated script writes after a successful tutorial. *)
Definition success_artifact (language_code : string) : load_outcome :=
  LoadOk (Py.VDict [("language", Py.VStr language_code);
                    ("tutorial", Py.VStr "TestTutorial");
                    ("status", Py.VStr "success");
                    ("timestamp", Py.VFloat 1700000000);
                    ("final_language", Py.VStr language_code)]).

(** Every locale configures cleanly, runs cleanly and leaves its record. *)
Definition all_good (language_codes : list string) (i : nat) : job :=
  job_of (exits 0 []) (exits 0 [])
         (Leaves (success_artifact (nth i language_codes ""))).

Definition batch_of (jobs : nat -> job) (write_fault : option write_fault)
    : batch :=
  Batch "/work" None "Linux" jobs 1700000100 write_fault.

Definition args_of (language_codes : list string) : args :=
  Args slicer "TestTutorial" language_codes (Some "/out") 300.


(** [n] verdicts under distinct keys, the first [s] with status success. *)
Definition mixed (s n : nat) : Py.dict verdict :=
  map (fun i => (Py.str_of_Z (Z.of_nat i),
                 [("status",
                   Py.VStr (if Nat.ltb i s then "success" else "error"))]))
      (seq 0 n).

End Scenario.

(** * Properties *)

Example contains_ex1 : Py.contains "pt-BR" "lang pt-BR ok" = true.
Proof. reflexivity. Qed.
Example contains_ex2 : Py.contains "pt-BR" "lang fr-FR ok" = false.
Proof. reflexivity. Qed.
Example strip_ex : Py.strip "  ab c
" = "ab c".
Proof. reflexivity. Qed.
Example strip_nbsp_ex :
  Py.strip (Py.of_bytes [194; 160; 97; 32; 98; 226; 128; 137; 13; 10]%nat)
  = "a b".
Proof. reflexivity. Qed.
Example strip_keeps_inner_ex :
  Py.strip "[12:00:00] ✅ Configuração salva com sucesso
" = "[12:00:00] ✅ Configuração salva com sucesso".
Proof. reflexivity. Qed.
Example str_of_Z_ex : Py.str_of_Z (-15) = "-15".
Proof. reflexivity. Qed.
Example replace_dash_ex : Py.replace_dash "pt-BR" = "pt_BR".
Proof. reflexivity. Qed.

(** ** Dictionaries *)

Lemma dict_get_set {V} (k k' : string) (v : V) (d : Py.dict V) :
  Py.dict_get k (Py.dict_set k' v d)
  = if String.eqb k k' then Some v else Py.dict_get k d.
Proof.
  induction d as [|[k0 v0] d IH]; simpl.
  - reflexivity.
  - destruct (String.eqb_spec k' k0) as [->|Hne]; simpl.
    + destruct (String.eqb k k0); reflexivity.
    + rewrite IH. destruct (String.eqb_spec k k0) as [->|]; [|reflexivity].
      destruct (String.eqb_spec k0 k'); congruence.
Qed.

Lemma get_set_ne (k k' : string) (v : Py.value) (d : Py.dict Py.value) :
  String.eqb k k' = false → Py.get k (Py.dict_set k' v d) = Py.get k d.
Proof. intros H. unfold Py.get. by rewrite dict_get_set, H. Qed.

(** ** The supervision loops always come to an end *)

Ltac munfold :=
  unfold bind, ret, raise, try_except, try_except_all, try_finally, emit,
    get_fs, set_fs in *.

Lemma configure_loop_total start p ticks acc w :
  ∃ e new, configure_loop start p ticks acc w
           = (Ret e, World (fs w) (trace w ++ new)).
Proof.
  revert acc w. induction ticks as [|t ticks IH]; intros acc w; simpl.
  - exists (CfgExited acc), []. munfold. rewrite app_nil_r. by destruct w.
  - destruct (Qgt_bool _ _).
    + destruct (p_grace p); munfold; simpl; eexists _, _;
        rewrite <- ?app_assoc; reflexivity.
    + destruct (rd t) as [line|].
      * destruct (nonempty line); [apply IH|].
        munfold; simpl.
        destruct (IH acc (World (fs w) (trace w ++ [ASleep (1 # 10)])))
          as (e & new & ->).
        simpl. eexists _, _. rewrite <- app_assoc. reflexivity.
      * exists (CfgReadBroke acc), []. munfold. rewrite app_nil_r. by destruct w.
Qed.

Lemma tutorial_loop_total T start p ticks acc w :
  ∃ r new, tutorial_loop T start p ticks acc w
           = (Ret r, World (fs w) (trace w ++ new)).
Proof.
  revert acc w. induction ticks as [|t ticks IH]; intros acc w; simpl.
  - eexists _, []. munfold. rewrite app_nil_r. by destruct w.
  - destruct (Qgt_bool _ _).
    + destruct (p_grace p); munfold; simpl; eexists _, _;
        rewrite <- ?app_assoc; reflexivity.
    + destruct (rd t) as [line|].
      * destruct (nonempty line); [apply IH|].
        munfold; simpl.
        destruct (IH acc (World (fs w) (trace w ++ [ASleep (1 # 10)])))
          as (e & new & ->).
        simpl. eexists _, _. rewrite <- app_assoc. reflexivity.
      * eexists _, []. munfold. rewrite app_nil_r. by destruct w.
Qed.

(** ** The two phases *)

(** Closes a goal [(r, World f t) = (r, World f (pre ++ ?new ++ post))]
    once the trace on the left is reassociated. *)
Ltac trace_eq :=
  f_equal; f_equal; [ f_equal; rewrite <- !app_assoc; cbn [app]; reflexivity ].

Lemma configure_spec self lc j w path :
  j_cfg_script j = CreateOk path →
  ∃ b new,
    _configure_language self lc j w
    = (Ret b,
       World (if j_cfg_unlink j then delete path (<[path := Script]> (fs w))
              else <[path := Script]> (fs w))
             ((trace w ++ ACreate path :: new) ++ [AUnlink path])).
Proof.
  intros Hc. unfold _configure_language. rewrite Hc.
  unfold create_script, Popen, wait_for_exit, unlink.
  munfold. cbn [fs trace].
  destruct (j_cfg j) as [msg|p].
  - cbn [fs trace]. rewrite lookup_insert_eq.
    destruct (j_cfg_unlink j); cbn [fs trace]; eexists _, _; trace_eq.
  - match goal with |- context [configure_loop ?s ?p ?t ?a ?w] =>
      destruct (configure_loop_total s p t a w) as (e & new & ->) end.
    cbn [fs trace].
    destruct e as [ls|ls|]; cbn [fs trace].
    all: repeat match goal with
         | |- context [p_grace ?p] => destruct (p_grace p); cbn [fs trace]
         | |- context [Z.eqb ?a ?b] => destruct (Z.eqb a b); cbn [fs trace]
         | |- context [config_found ?a || success_msg_found ?b] =>
             destruct (config_found a || success_msg_found b); cbn [fs trace]
         end.
    all: rewrite lookup_insert_eq; destruct (j_cfg_unlink j); cbn [fs trace];
         eexists _, _; trace_eq.
Qed.

Lemma numeric_time_merged q rc out (d : Py.dict Py.value) :
  numeric_time
    (Py.dict_set "slicer_output" out
       (Py.dict_set "return_code" rc
          (Py.dict_set "execution_time" (Py.VFloat q) d))) = true.
Proof.
  unfold numeric_time, get_default. rewrite !dict_get_set. reflexivity.
Qed.

Lemma run_spec self T pf lc j w path :
  j_run_script j = CreateOk path →
  ∃ v F new,
    _run_tutorial_test self T pf lc j w
    = (Ret v, World F ((trace w ++ ACreate path :: new) ++ [AUnlink path]))
    ∧ (j_run_unlink j = true → F !! path = None)
    ∧ (Py.get "status" v = Py.VStr "error"
       ∨ ∃ d, In (ALoad (result_file self lc) (LoadOk (Py.VDict d))) new
              ∧ In (AExists (result_file self lc) true) new
              ∧ Py.get "status" v = Py.get "status" d)
    ∧ numeric_time v = true.
Proof.
  intros Hc. unfold _run_tutorial_test. rewrite Hc.
  unfold create_script, Popen, unlink, path_exists, json_load, setitem.
  munfold. cbn [fs trace].
  destruct (j_run j) as [msg|p]; cbn [fs trace].
  - rewrite lookup_insert_eq.
    destruct (j_run_unlink j); cbn [fs trace]; eexists _, _, _;
      (split; [trace_eq|]); (split; [|split; [by left|reflexivity]]);
      intros; try discriminate.
    apply lookup_delete_eq.
  - match goal with |- context [tutorial_loop ?T ?s ?p ?t ?a ?w] =>
      destruct (tutorial_loop_total T s p t a w) as ([rc ls] & new & ->) end.
    cbn [fs trace].
    set (F0 := apply_effect (result_file self lc) (j_artifact j)
                 (<[path:=Script]> (fs w))).
    destruct (bool_decide (is_Some (F0 !! result_file self lc))) eqn:Hex;
      cbn [fs trace].
    + destruct (load_of (F0 !! result_file self lc)) as [msg|a] eqn:Hload;
        cbn [fs trace]; [|destruct a; cbn [fs trace]].
      all: destruct (F0 !! path) eqn:Hp; [destruct (j_run_unlink j)|];
        cbn [fs trace]; eexists _, _, _; (split; [trace_eq|]);
        (split; [intros; first [apply lookup_delete_eq|discriminate|assumption]|]).
      all: split; [|first [reflexivity|apply numeric_time_merged]].
      all: try (left; reflexivity).
      all: right; eexists; (split; [|split]);
        [cbn [In]; rewrite ?in_app_iff; cbn [In]; eauto 10..|].
      all: rewrite !get_set_ne by reflexivity; reflexivity.
    + destruct (F0 !! path) eqn:Hp; [destruct (j_run_unlink j)|];
        cbn [fs trace]; eexists _, _, _; (split; [trace_eq|]);
        (split; [intros; first [apply lookup_delete_eq|discriminate|assumption]|]).
      all: split; [left; reflexivity|reflexivity].
Qed.

Lemma configure_create_raises_world self lc j w msg left_behind :
  j_cfg_script j = CreateRaises msg left_behind →
  ∃ F new, _configure_language self lc j w
           = (Raise (Exception msg), World F (trace w ++ new)).
Proof.
  intros Hc. unfold _configure_language. rewrite Hc.
  destruct left_behind; unfold create_script; munfold; cbn [fs trace].
  - eexists _, _. reflexivity.
  - exists (fs w), []. rewrite app_nil_r. by destruct w.
Qed.

Lemma run_create_raises_world self T pf lc j w msg left_behind :
  j_run_script j = CreateRaises msg left_behind →
  ∃ F new, _run_tutorial_test self T pf lc j w
           = (Raise (Exception msg), World F (trace w ++ new)).
Proof.
  intros Hc. unfold _run_tutorial_test. rewrite Hc.
  destruct left_behind; unfold create_script; munfold; cbn [fs trace].
  - eexists _, _. reflexivity.
  - exists (fs w), []. rewrite app_nil_r. by destruct w.
Qed.

(** A phase ends in a value or in an ordinary [Exception], and only adds
    to the trace. *)
Lemma configure_outcome self lc j w :
  ∃ r F new,
    _configure_language self lc j w = (r, World F (trace w ++ new))
    ∧ ((∃ b, r = Ret b) ∨ (∃ msg, r = Raise (Exception msg))).
Proof.
  destruct (j_cfg_script j) as [path|msg lb] eqn:Hc.
  - destruct (configure_spec self lc j w path Hc) as (b & new & ->).
    eexists _, _, _. split; [|left; eauto].
    rewrite <- app_assoc. reflexivity.
  - destruct (configure_create_raises_world self lc j w msg lb Hc)
      as (F & new & ->).
    eexists _, _, _. split; [reflexivity|right; eauto].
Qed.

Lemma run_outcome self T pf lc j w :
  ∃ r F new,
    _run_tutorial_test self T pf lc j w = (r, World F (trace w ++ new))
    ∧ ((∃ v, r = Ret v
             ∧ numeric_time v = true
             ∧ (Py.get "status" v = Py.VStr "error"
                ∨ ∃ d, In (AExists (result_file self lc) true) new
                       ∧ In (ALoad (result_file self lc) (LoadOk (Py.VDict d))) new
                       ∧ Py.get "status" v = Py.get "status" d))
       ∨ (∃ msg, r = Raise (Exception msg))).
Proof.
  destruct (j_run_script j) as [path|msg lb] eqn:Hc.
  - destruct (run_spec self T pf lc j w path Hc)
      as (v & F & new & -> & _ & Hst & Hnum).
    eexists _, _, _. split; [rewrite <- app_assoc; reflexivity|].
    left. exists v. split; [reflexivity|]. split; [exact Hnum|].
    destruct Hst as [?|(d & H1 & H2 & H3)]; [by left|right].
    exists d. rewrite ?in_app_iff. cbn [In]. rewrite ?in_app_iff. eauto 10.
  - destruct (run_create_raises_world self T pf lc j w msg lb Hc)
      as (F & new & ->).
    eexists _, _, _. split; [reflexivity|right; eauto].
Qed.

(** C7. [run_test_for_language] runs the configure phase first; when it
    reports failure the verdict is the configuration error and the world is
    left exactly as configure left it, so the execute phase was never
    started. An exception escaping either phase becomes an "exception"
    verdict carrying its message. Nothing is ever raised to the caller. *)
Theorem run_locale_sequencing self T pf lc j w :
  (∃ v w', run_test_for_language self T pf lc j w = (Ret v, w'))
  ∧ match _configure_language self lc j w with
    | (Ret false, w1) =>
        ∃ v, run_test_for_language self T pf lc j w = (Ret v, w1)
             ∧ Py.get "status" v = Py.VStr "error"
             ∧ Py.get "error" v = Py.VStr "Falha na configuração de linguagem"
             ∧ Py.get "execution_time" v = Py.VInt 0
    | (Ret true, w1) =>
        match _run_tutorial_test self T pf lc j w1 with
        | (Ret v, w2) => run_test_for_language self T pf lc j w = (Ret v, w2)
        | (Raise (Exception msg), w2) =>
            ∃ v, run_test_for_language self T pf lc j w = (Ret v, w2)
                 ∧ Py.get "status" v = Py.VStr "exception"
                 ∧ Py.get "error" v = Py.VStr msg
        | (Raise (SystemExit _), _) => False
        end
    | (Raise (Exception msg), w1) =>
        ∃ v, run_test_for_language self T pf lc j w = (Ret v, w1)
             ∧ Py.get "status" v = Py.VStr "exception"
             ∧ Py.get "error" v = Py.VStr msg
    | (Raise (SystemExit _), _) => False
    end.
Proof.
  unfold run_test_for_language. munfold.
  destruct (configure_outcome self lc j w) as (r & F & new & Hcfg & Hr).
  rewrite Hcfg.
  destruct Hr as [[b ->]|[msg ->]].
  - destruct b; cbn [negb].
    + destruct (run_outcome self T pf lc j (World F (trace w ++ new)))
        as (r & F' & new' & Hrun & Hr).
      rewrite Hrun.
      destruct Hr as [(v & -> & _ & _)|[msg ->]]; split; eauto 10.
    + split; eauto 10.
  - split; eauto 10.
Qed.

(** ** Cleanup of the transient scripts *)

(** C8 (as amended). Whenever the creation helper returned a script path,
    the phase ends by attempting [os.unlink] on that path, on every way out
    (success, failure result, timeout, caught exception), and the script is
    absent afterwards provided that unlink did not fail; a failing unlink is
    swallowed. *)
Theorem transient_script_cleanup self T pf lc j w path :
  (j_cfg_script j = CreateOk path →
   ∃ b F new,
     _configure_language self lc j w
     = (Ret b, World F ((trace w ++ ACreate path :: new) ++ [AUnlink path]))
     ∧ (j_cfg_unlink j = true → F !! path = None))
  ∧ (j_run_script j = CreateOk path →
     ∃ v F new,
       _run_tutorial_test self T pf lc j w
       = (Ret v, World F ((trace w ++ ACreate path :: new) ++ [AUnlink path]))
       ∧ (j_run_unlink j = true → F !! path = None)).
Proof.
  split; intros Hc.
  - destruct (configure_spec self lc j w path Hc) as (b & new & ->).
    eexists _, _, _. split; [reflexivity|].
    intros ->. apply lookup_delete_eq.
  - destruct (run_spec self T pf lc j w path Hc)
      as (v & F & new & -> & HF & _ & _).
    eauto 10.
Qed.

Lemma transient_script_cleanup_witness :
  fs (snd (_configure_language Scenario.self "fr-FR"
             (Scenario.job_of (Scenario.exits 1 []) Scenario.hangs Untouched)
             Scenario.w0)) !! Scenario.cfg_path = None
  ∧ fs (snd (_run_tutorial_test Scenario.self 300 "Linux" "fr-FR"
               (Scenario.job_of (Scenario.exits 1 []) Scenario.hangs Untouched)
               Scenario.w0)) !! Scenario.run_path = None.
Proof.
  split.
  - destruct (transient_script_cleanup Scenario.self 300 "Linux" "fr-FR"
                (Scenario.job_of (Scenario.exits 1 []) Scenario.hangs Untouched)
                Scenario.w0 Scenario.cfg_path) as [H _].
    destruct (H eq_refl) as (b & F & new & -> & HF).
    apply HF. reflexivity.
  - destruct (transient_script_cleanup Scenario.self 300 "Linux" "fr-FR"
                (Scenario.job_of (Scenario.exits 1 []) Scenario.hangs Untouched)
                Scenario.w0 Scenario.run_path) as [_ H].
    destruct (H eq_refl) as (b & F & new & -> & HF).
    apply HF. reflexivity.
Defined.

(** C8 (as stated) fails: configure times out on a child that survives
    [terminate], kills it and returns at once; [os.unlink] then raises (the
    script is still in use), the bare [except] of the [finally] block
    swallows the fault and the script stays on disk. *)
Lemma script_left_behind_when_unlink_fails :
  fst (_configure_language Scenario.self "fr-FR"
         (Job (CreateOk Scenario.cfg_path) (Spawned Scenario.hangs_in_configure)
              false
              (CreateOk Scenario.run_path) (Spawned (Scenario.exits 0 []))
              Untouched true)
         Scenario.w0) = Ret false
  ∧ ¬ script_absent_after (CreateOk Scenario.cfg_path)
        (snd (_configure_language Scenario.self "fr-FR"
                (Job (CreateOk Scenario.cfg_path)
                     (Spawned Scenario.hangs_in_configure) false
                     (CreateOk Scenario.run_path) (Spawned (Scenario.exits 0 []))
                     Untouched true)
                Scenario.w0)).
Proof.
  split; [vm_compute; reflexivity|].
  intros H. specialize (H Scenario.cfg_path eq_refl).
  vm_compute in H. discriminate H.
Qed.

(** ** Where a verdict's status comes from *)

(** C3 (as amended). [run_test_for_language] always returns a verdict. Its
    status is "error" or "exception" when the driver synthesised it;
    otherwise the verdict is the result artifact found at the expected path,
    loaded as a dictionary, and the status is the artifact's own status
    field, taken over unchecked. So a verdict has status "success" only if
    the artifact was found and says "success"; the exit code is recorded in
    the verdict but plays no part. *)
Theorem verdict_status_origin self T pf lc j w :
  ∃ v w' new,
    run_test_for_language self T pf lc j w = (Ret v, w')
    ∧ trace w' = trace w ++ new
    ∧ (Py.get "status" v = Py.VStr "error"
       ∨ Py.get "status" v = Py.VStr "exception"
       ∨ ∃ d, In (AExists (result_file self lc) true) new
              ∧ In (ALoad (result_file self lc) (LoadOk (Py.VDict d))) new
              ∧ Py.get "status" v = Py.get "status" d)
    ∧ (Py.get "status" v = Py.VStr "success" →
       ∃ d, In (AExists (result_file self lc) true) new
            ∧ In (ALoad (result_file self lc) (LoadOk (Py.VDict d))) new
            ∧ Py.get "status" d = Py.VStr "success").
Proof.
  assert (Hmain : ∃ v w' new,
    run_test_for_language self T pf lc j w = (Ret v, w')
    ∧ trace w' = trace w ++ new
    ∧ (Py.get "status" v = Py.VStr "error"
       ∨ Py.get "status" v = Py.VStr "exception"
       ∨ ∃ d, In (AExists (result_file self lc) true) new
              ∧ In (ALoad (result_file self lc) (LoadOk (Py.VDict d))) new
              ∧ Py.get "status" v = Py.get "status" d)).
  { unfold run_test_for_language. munfold.
    destruct (configure_outcome self lc j w) as (r & F & new & -> & Hr).
    destruct Hr as [[b ->]|[msg ->]].
    - destruct b; cbn [negb].
      + destruct (run_outcome self T pf lc j (World F (trace w ++ new)))
          as (r & F' & new' & -> & Hr).
        cbn [trace].
        destruct Hr as [(v & -> & _ & Hst)|[msg ->]].
        * exists v. eexists _, (new ++ new'). split; [reflexivity|].
          split; [cbn [trace]; by rewrite app_assoc|].
          destruct Hst as [?|(d & H1 & H2 & H3)]; [by left|].
          right; right. exists d. rewrite !in_app_iff. eauto 10.
        * eexists _, _, (new ++ new'). split; [reflexivity|].
          split; [cbn [trace]; by rewrite app_assoc|]. right; left; reflexivity.
      + eexists _, _, new. split; [reflexivity|]. split; [reflexivity|].
        left; reflexivity.
    - eexists _, _, new. split; [reflexivity|]. split; [reflexivity|].
      right; left; reflexivity. }
  destruct Hmain as (v & w' & new & Hrun & Htr & Hst).
  exists v, w', new. repeat split; try assumption.
  intros Hs. rewrite Hs in Hst.
  destruct Hst as [?|[?|(d & H1 & H2 & H3)]]; try discriminate.
  exists d. auto.
Qed.

Lemma verdict_status_origin_witness :
  ∃ v, fst (run_test_for_language Scenario.self 300 "Linux" "pt-BR"
              (Scenario.all_good ["pt-BR"] 0) Scenario.w0) = Ret v
       ∧ ∃ d, Py.get "status" d = Py.VStr "success"
              ∧ In (ALoad (result_file Scenario.self "pt-BR") (LoadOk (Py.VDict d)))
                   (trace (snd (run_test_for_language Scenario.self 300 "Linux"
                                  "pt-BR" (Scenario.all_good ["pt-BR"] 0)
                                  Scenario.w0))).
Proof.
  destruct (verdict_status_origin Scenario.self 300 "Linux" "pt-BR"
              (Scenario.all_good ["pt-BR"] 0) Scenario.w0)
    as (v & w' & new & Hrun & Htr & _ & Hsucc).
  rewrite Hrun. cbn [fst snd]. exists v. split; [reflexivity|].
  assert (Hv : Py.get "status" v = Py.VStr "success").
  { vm_compute in Hrun. injection Hrun as <- _. reflexivity. }
  destruct (Hsucc Hv) as (d & _ & Hin & Hd).
  exists d. split; [exact Hd|].
  rewrite Htr. apply in_or_app. right. exact Hin.
Defined.

(** C3 (as stated) fails: the child leaves a "success" record and then
    exits with code 1; configure exited with code 0 and nothing was
    captured, so no alternative evidence is involved. The verdict is
    "success" all the same, with [return_code] 1. *)
Lemma success_verdict_despite_nonzero_exit :
  ∃ v, fst (run_test_for_language Scenario.self 300 "Linux" "pt-BR"
              (Scenario.job_of (Scenario.exits 0 []) (Scenario.exits 1 [])
                 (Leaves (Scenario.success_artifact "pt-BR")))
              Scenario.w0) = Ret v
       ∧ Py.get "status" v = Py.VStr "success"
       ∧ Py.get "return_code" v = Py.VInt 1
       ∧ ¬ (enumerated_status (Py.get "status" v)
            ∧ success_requires_clean_exit v).
Proof.
  eexists. split; [vm_compute; reflexivity|].
  split; [reflexivity|]. split; [reflexivity|].
  intros [_ H]. specialize (H eq_refl). discriminate H.
Qed.

(** ** An artifact that cannot be read *)

(** C10. When the result artifact exists once the child is done but opening
    or parsing it raises, [_run_tutorial_test] raises nothing: it returns
    the "error" verdict carrying the fault's message, with [execution_time]
    0 whatever time has elapsed. *)
Theorem unreadable_artifact_verdict self T pf lc j w path p msg :
  j_run_script j = CreateOk path →
  j_run j = Spawned p →
  is_Some (fs_at_check self lc j w path !! result_file self lc) →
  load_of (fs_at_check self lc j w path !! result_file self lc) = LoadRaises msg →
  fst (_run_tutorial_test self T pf lc j w)
  = Ret [("language", Py.VStr lc);
         ("tutorial", Py.VStr (tutorial_name self));
         ("status", Py.VStr "error");
         ("error", Py.VStr msg);
         ("execution_time", Py.VInt 0)].
Proof.
  intros Hc Hp Hex Hload. unfold fs_at_check in *.
  unfold _run_tutorial_test. rewrite Hc, Hp.
  unfold create_script, Popen, unlink, path_exists, json_load, setitem.
  munfold. cbn [fs trace].
  match goal with |- context [tutorial_loop ?T ?s ?p ?t ?a ?w] =>
    destruct (tutorial_loop_total T s p t a w) as ([rc ls] & new & ->) end.
  cbn [fs trace].
  rewrite (bool_decide_eq_true_2 _ Hex). cbn [fs trace].
  rewrite Hload. cbn [fs trace].
  repeat match goal with
         | |- context [match ?m !! ?k with _ => _ end] =>
             destruct (m !! k); cbn [fs trace]
         | |- context [j_run_unlink j] => destruct (j_run_unlink j); cbn [fs trace]
         end; reflexivity.
Qed.

Lemma unreadable_artifact_verdict_witness :
  fst (_run_tutorial_test Scenario.self 300 "Linux" "es-419"
         (Scenario.job_of (Scenario.exits 0 []) (Scenario.exits 0 [])
            (Leaves (LoadRaises "Expecting value: line 1 column 1 (char 0)")))
         Scenario.w0)
  = Ret [("language", Py.VStr "es-419");
         ("tutorial", Py.VStr "TestTutorial");
         ("status", Py.VStr "error");
         ("error", Py.VStr "Expecting value: line 1 column 1 (char 0)");
         ("execution_time", Py.VInt 0)].
Proof.
  apply (unreadable_artifact_verdict Scenario.self 300 "Linux" "es-419" _
           Scenario.w0 Scenario.run_path (Scenario.exits 0 [])).
  - reflexivity.
  - reflexivity.
  - vm_compute. eexists. reflexivity.
  - vm_compute. reflexivity.
Defined.

(** ** The batch loop *)

Lemma run_test_for_language_total self T pf lc j w :
  ∃ v w', run_test_for_language self T pf lc j w = (Ret v, w')
          ∧ numeric_time v = true.
Proof.
  unfold run_test_for_language. munfold.
  destruct (configure_outcome self lc j w) as (r & F & new & -> & Hr).
  destruct Hr as [[b ->]|[msg ->]]; [destruct b; cbn [negb]|]; eauto.
  destruct (run_outcome self T pf lc j (World F (trace w ++ new)))
    as (r & F' & new' & -> & Hr).
  destruct Hr as [(v & -> & Hnum & _)|[msg ->]]; eauto.
Qed.

Lemma dict_keys_set {V} (k : string) (v : V) (d : Py.dict V) :
  Py.dict_keys (Py.dict_set k v d) = add_key (Py.dict_keys d) k.
Proof.
  unfold add_key, Py.dict_keys.
  induction d as [|[k0 v0] d IH]; simpl; [reflexivity|].
  destruct (String.eqb_spec k k0) as [->|_]; simpl; [reflexivity|].
  rewrite IH. destruct (existsb (String.eqb k) (map fst d)); reflexivity.
Qed.

Lemma existsb_eqb_in (k : string) (seen : list string) :
  existsb (String.eqb k) seen = true ↔ k ∈ seen.
Proof.
  rewrite existsb_exists. split.
  - intros (x & Hin & Heq). apply String.eqb_eq in Heq as ->.
    by apply list_elem_of_In.
  - intros Hin. exists k. split; [by apply list_elem_of_In|apply String.eqb_refl].
Qed.

Lemma add_key_NoDup seen k : NoDup seen → NoDup (add_key seen k).
Proof.
  intros Hnd. unfold add_key.
  destruct (existsb (String.eqb k) seen) eqn:E; [assumption|].
  apply NoDup_app. split; [assumption|]. split; [|apply NoDup_singleton].
  intros x Hx Hk. apply list_elem_of_singleton in Hk as ->.
  apply existsb_eqb_in in Hx. congruence.
Qed.

Lemma fold_add_key_NoDup L seen : NoDup seen → NoDup (fold_left add_key L seen).
Proof.
  revert seen. induction L as [|k L IH]; intros seen Hnd; simpl; [assumption|].
  apply IH, add_key_NoDup, Hnd.
Qed.

Lemma fold_add_key_id L seen :
  NoDup (seen ++ L) → fold_left add_key L seen = seen ++ L.
Proof.
  revert seen. induction L as [|k L IH]; intros seen Hnd; simpl.
  - by rewrite app_nil_r.
  - assert (Hk : existsb (String.eqb k) seen = false).
    { destruct (existsb (String.eqb k) seen) eqn:E; [|reflexivity].
      apply existsb_eqb_in in E. apply NoDup_app in Hnd as (_ & Hdisj & _).
      exfalso. apply (Hdisj k E). left. }
    unfold add_key at 2. rewrite Hk.
    rewrite IH; rewrite <- app_assoc; [reflexivity|exact Hnd].
Qed.

Lemma log_result_ok v w : numeric_time v = true → log_result v w = (Ret tt, w).
Proof.
  unfold log_result, numeric_time, format_1f.
  destruct (get_default "execution_time" (Py.VInt 0) v); try discriminate;
    intros _; repeat match goal with
                     | |- context [if ?b then _ else _] => destruct b
                     end; reflexivity.
Qed.

(** The loop runs the locales in order, one run each, and stores every
    verdict under its locale code. *)
Lemma run_all_loop_spec self T pf jobs L i results w :
  ∃ vs w',
    run_each self T pf jobs i L w = (vs, w')
    ∧ length vs = length L
    ∧ run_all_loop self T pf jobs i L results w
      = (Ret (fold_left store (combine L vs) results), w').
Proof.
  revert i results w. induction L as [|lang L IH]; intros i results w; simpl.
  - eexists _, _. repeat split.
  - munfold.
    destruct (run_test_for_language_total self T pf lang (jobs i) w)
      as (v & w1 & -> & Hnum).
    rewrite (log_result_ok v w1 Hnum).
    destruct (IH (S i) (Py.dict_set lang v results) w1)
      as (vs & w' & -> & Hlen & ->).
    exists (v :: vs), w'. simpl. by rewrite Hlen.
Qed.

Lemma fold_store_keys L vs results :
  length vs = length L →
  Py.dict_keys (fold_left store (combine L vs) results)
  = fold_left add_key L (Py.dict_keys results).
Proof.
  revert vs results. induction L as [|k L IH]; intros vs results Hlen.
  - reflexivity.
  - destruct vs as [|v vs]; [discriminate|]. simpl in *.
    rewrite IH by congruence. unfold store. simpl. by rewrite dict_keys_set.
Qed.

Lemma dict_set_fresh {V} (k : string) (v : V) (d : Py.dict V) :
  k ∉ Py.dict_keys d → Py.dict_set k v d = d ++ [(k, v)].
Proof.
  unfold Py.dict_keys. induction d as [|[k0 v0] d IH]; simpl; intros Hk.
  - reflexivity.
  - apply not_elem_of_cons in Hk as [Hne Hk].
    destruct (String.eqb_spec k k0) as [->|_]; [contradiction|].
    by rewrite IH.
Qed.

Lemma fold_store_fresh L vs results :
  length vs = length L →
  NoDup (Py.dict_keys results ++ L) →
  fold_left store (combine L vs) results = results ++ combine L vs.
Proof.
  revert vs results. induction L as [|k L IH]; intros vs results Hlen Hnd.
  - simpl. by rewrite app_nil_r.
  - destruct vs as [|v vs]; [discriminate|]. simpl in *.
    assert (Hk : k ∉ Py.dict_keys results).
    { apply NoDup_app in Hnd as (_ & Hdisj & _).
      intros Hin. apply (Hdisj k Hin). left. }
    unfold store at 2. simpl. rewrite (dict_set_fresh k v results Hk).
    rewrite IH.
    + by rewrite <- app_assoc.
    + congruence.
    + unfold Py.dict_keys. rewrite map_app. simpl.
      rewrite <- app_assoc. exact Hnd.
Qed.

(** C6 (as amended). For every list of locale codes, the empty one
    included, [run_all_tests] runs the locales in order, once each, and
    returns the mapping obtained by storing each verdict under its code:
    the keys are the distinct codes of the list in order of first
    occurrence. The mapping therefore holds exactly one verdict per
    element, with the keys in input order, exactly when no code is
    repeated; it is then the list of the codes paired with their
    verdicts. *)
Theorem run_all_tests_keys self T pf L jobs w :
  ∃ results vs w',
    run_all_tests self T pf (Some L) jobs w = (Ret results, w')
    ∧ run_each self T pf jobs 0 L w = (vs, w')
    ∧ length vs = length L
    ∧ results = fold_left store (combine L vs) []
    ∧ Py.dict_keys results = first_occurrences L
    ∧ (one_verdict_per_element L results ↔ NoDup L)
    ∧ (NoDup L → results = combine L vs).
Proof.
  unfold run_all_tests.
  destruct (run_all_loop_spec self T pf jobs L 0%nat [] w)
    as (vs & w' & Heach & Hlen & ->).
  assert (Hkeys : Py.dict_keys (fold_left store (combine L vs) [])
                  = first_occurrences L).
  { by rewrite fold_store_keys. }
  eexists _, vs, w'. split; [reflexivity|]. split; [exact Heach|].
  split; [exact Hlen|]. split; [reflexivity|]. split; [exact Hkeys|].
  split.
  - unfold one_verdict_per_element. rewrite Hkeys. split.
    + intros [_ Heq]. rewrite <- Heq. apply fold_add_key_NoDup. constructor.
    + intros Hnd. assert (Hid := fold_add_key_id L [] Hnd). simpl in Hid.
      split; [|exact Hid].
      unfold Py.dict_keys in Hkeys.
      rewrite <- (length_map fst), Hkeys. unfold first_occurrences.
      by rewrite Hid.
  - intros Hnd. by rewrite fold_store_fresh.
Qed.

Lemma run_all_tests_keys_witness :
  ∃ results,
    fst (run_all_tests Scenario.self 300 "Linux" (Some DEFAULT_LANGUAGES)
           (Scenario.all_good DEFAULT_LANGUAGES) Scenario.w0) = Ret results
    ∧ Py.dict_keys results = ["pt-BR"; "es-419"; "fr-FR"].
Proof.
  destruct (run_all_tests_keys Scenario.self 300 "Linux" DEFAULT_LANGUAGES
              (Scenario.all_good DEFAULT_LANGUAGES) Scenario.w0)
    as (results & vs & w' & -> & _ & _ & _ & Hkeys & Hiff & _).
  exists results. split; [reflexivity|].
  destruct (proj2 Hiff) as [_ Hk]; [|exact Hk].
  unfold DEFAULT_LANGUAGES.
  apply NoDup_cons_2; [|apply NoDup_cons_2; [|apply NoDup_cons_2; [|apply NoDup_nil_2]]];
    rewrite list_elem_of_In; simpl; intuition discriminate.
Defined.

(** C6 (as stated) fails on a list that repeats a code: both runs are
    stored under the same key, so two elements yield one verdict. *)
Lemma repeated_locale_yields_one_verdict :
  ∃ results,
    fst (run_all_tests Scenario.self 300 "Linux" (Some ["pt-BR"; "pt-BR"])
           (Scenario.all_good ["pt-BR"; "pt-BR"]) Scenario.w0) = Ret results
    ∧ length results = 1%nat
    ∧ ¬ one_verdict_per_element ["pt-BR"; "pt-BR"] results.
Proof.
  eexists. split; [vm_compute; reflexivity|].
  split; [reflexivity|].
  intros [H _]. discriminate H.
Qed.

(** ** The report *)

Lemma fold_add_ones {A} (l : list A) (acc : Z) :
  fold_left Z.add (map (fun _ => 1) l) acc = acc + Z.of_nat (length l).
Proof.
  revert acc. induction l as [|x l IH]; intros acc; simpl length; simpl map;
    simpl fold_left.
  - lia.
  - rewrite IH. lia.
Qed.

Lemma count_success_successes results :
  count_success results = Z.of_nat (successes results).
Proof.
  unfold count_success. rewrite fold_add_ones, Z.add_0_l. f_equal.
  unfold Py.dict_values.
  induction results as [|[k r] rest IH]; simpl; [reflexivity|].
  destruct (Py.eq_str (Py.get "status" r) "success"); simpl; by rewrite IH.
Qed.

Lemma successes_le results : (successes results <= length results)%nat.
Proof.
  induction results as [|[k r] rest IH]; simpl; [lia|].
  destruct (Py.eq_str _ _); lia.
Qed.

Lemma print_result_outcome result w :
  (printable result = true ∧ print_result result w = (Ret tt, w))
  ∨ (printable result = false
     ∧ ∃ msg, print_result result w = (Raise (Exception msg), w)).
Proof.
  unfold print_result, printable, icon_and_upper, format_1f. munfold.
  destruct (get_default "status" (Py.VStr "unknown") result);
    destruct (get_default "execution_time" (Py.VInt 0) result); eauto.
Qed.

Lemma print_results_outcome results w :
  (forallb printable (Py.dict_values results) = true
   ∧ print_results results w = (Ret tt, w))
  ∨ (forallb printable (Py.dict_values results) = false
     ∧ ∃ msg, print_results results w = (Raise (Exception msg), w)).
Proof.
  induction results as [|[k r] rest IH]; simpl; [by left|]. munfold.
  destruct (print_result_outcome r w) as [[-> ->]|[-> [msg ->]]]; simpl.
  - exact IH.
  - right. eauto.
Qed.

(** With the report written, [generate_report] ends in [out]: the report
    itself, unless a result line cannot be formatted. *)
Lemma generate_report_ok self results clock w :
  ∃ r out,
    generate_report self results clock None w
    = (out,
       World (<[report_file self := Data (LoadOk (report_value r))]> (fs w))
             (trace w ++ [AWriteReport (report_file self)]))
    ∧ (if forallb printable (Py.dict_values results) then out = Ret r
       else ∃ msg, out = Raise (Exception msg))
    ∧ r_results r = results
    ∧ total_tests (r_summary r) = Z.of_nat (length results)
    ∧ successful_tests (r_summary r) = Z.of_nat (successes results)
    ∧ failed_tests (r_summary r)
      = Z.of_nat (length results) - Z.of_nat (successes results)
    ∧ success_rate (r_summary r) = reported_rate results.
Proof.
  unfold generate_report, truediv, write_json, reported_rate, float_rate.
  munfold. rewrite count_success_successes.
  destruct (length results) as [|n] eqn:Hlen.
  - apply length_zero_iff_nil in Hlen. subst results.
    eexists _, _. split; [reflexivity|]. cbn. repeat split.
  - replace (Z.ltb 0 (Z.of_nat (S n))) with true
      by (symmetry; apply Z.ltb_lt; lia).
    replace (Z.eqb (Z.of_nat (S n)) 0) with false
      by (symmetry; apply Z.eqb_neq; lia).
    cbn [fs trace].
    match goal with |- context [print_results results ?w0] =>
      destruct (print_results_outcome results w0) as [[-> ->]|[-> [msg ->]]] end;
      eexists _, _; (split; [reflexivity|]);
      cbn [r_results r_summary total_tests successful_tests failed_tests
           success_rate]; eauto 10.
Qed.

(** A failing write surfaces as itself; the report path is untouched when
    [open] failed and holds no JSON document when the dump did. *)
Lemma generate_report_fault self results clock wf w :
  generate_report self results clock (Some wf) w
  = (Raise (Exception (fault_message wf)),
     World (match wf with
            | OpenRaises _ => fs w
            | DumpRaises _ =>
                <[report_file self := Data (LoadRaises "JSONDecodeError")]> (fs w)
            end)
           (trace w ++ [AWriteReport (report_file self)])).
Proof.
  unfold generate_report, truediv, write_json. munfold.
  destruct (length results) as [|n].
  - destruct wf; reflexivity.
  - replace (Z.ltb 0 (Z.of_nat (S n))) with true
      by (symmetry; apply Z.ltb_lt; lia).
    replace (Z.eqb (Z.of_nat (S n)) 0) with false
      by (symmetry; apply Z.eqb_neq; lia).
    destruct wf; reflexivity.
Qed.

(** Deciding on the exact ratio instead of the double does not change the
    exit code: checked for every count of successes in every batch of up
    to 200 locales. *)
Lemma rational_rate_decides_like_doubles : exits_agree_upto 200 = true.
Proof. vm_compute. reflexivity. Qed.

(** The computed rate against the exact one, for the same batches. *)
Lemma rates_agree_200 : rates_agree_upto 200 = true.
Proof. vm_compute. reflexivity. Qed.

Lemma in_upto (k : Z) (m : nat) : 0 <= k <= Z.of_nat m → In k (upto m).
Proof.
  intros Hk. unfold upto. apply in_map_iff. exists (Z.to_nat k).
  split; [lia|]. apply in_seq. lia.
Qed.

Lemma rates_agree_upto_spec (m : nat) :
  rates_agree_upto m = true →
  ∀ s n, 0 <= s <= n → 0 < n <= Z.of_nat m →
         (rate_error s n <= 1 # 2 ^ 46)%Q
         ∧ num_eqb (NFloat (float_rate s n)) 100 = Z.eqb s n
         ∧ num_geb (NFloat (float_rate s n)) 50 = Z.leb n (2 * s).
Proof.
  intros H s n Hs Hn.
  unfold rates_agree_upto in H. rewrite forallb_forall in H.
  specialize (H n (in_upto n m ltac:(lia))).
  rewrite forallb_forall in H.
  specialize (H s (in_upto s (Z.to_nat n) ltac:(lia))).
  replace (Z.eqb n 0) with false in H by (symmetry; apply Z.eqb_neq; lia).
  cbn [orb] in H. apply andb_prop in H as [H Hge].
  apply andb_prop in H as [Herr Heq].
  apply Qle_bool_iff in Herr. apply Bool.eqb_prop in Heq, Hge. auto.
Qed.

(** What the computed rate of a batch of up to 200 verdicts says. *)
Lemma reported_rate_decisions results :
  (length results <= 200)%nat →
  (num_eqb (reported_rate results) 100 = true
   ↔ results ≠ [] ∧ successes results = length results)
  ∧ (num_geb (reported_rate results) 50 = true
     ↔ results ≠ [] ∧ (length results <= 2 * successes results)%nat)
  ∧ (Qabs (num_Q (reported_rate results) - spec_rate results) <= 1 # 2 ^ 46)%Q.
Proof.
  intros Hlen. unfold reported_rate, spec_rate.
  assert (Hle := successes_le results).
  destruct results as [|x rest] eqn:E; [|rewrite <- E in *].
  - cbn. repeat split; try discriminate; intros [H _]; congruence.
  - assert (Hpos : (0 < length results)%nat) by (rewrite E; simpl; lia).
    assert (Hne : results ≠ []) by (rewrite E; discriminate).
    replace (Z.ltb 0 (Z.of_nat (length results))) with true
      by (symmetry; apply Z.ltb_lt; lia).
    destruct (rates_agree_upto_spec 200 rates_agree_200
                (Z.of_nat (successes results)) (Z.of_nat (length results)))
      as (Herr & Heq & Hge); [lia|lia|].
    rewrite Heq, Hge, Z.eqb_eq, Z.leb_le.
    split; [|split].
    + split; [intros H; split; [exact Hne|lia]|intros [_ H]; lia].
    + split; [intros H; split; [exact Hne|lia]|intros [_ H]; lia].
    + destruct (length results) as [|n] eqn:Hl; [lia|]. exact Herr.
Qed.

(** C4. On a mapping with N entries of which S have status "success",
    [generate_report] builds and persists a report with [total_tests] = N,
    [successful_tests] = S and [failed_tests] = N - S, so that successes
    plus failures make the total. Its [success_rate] is the [int] 0 for
    the empty mapping, where nothing is divided, and otherwise the
    binary64 value of [S / N * 100]: the quotient rounded, then the
    product rounded. For up to 200 entries that value is within 2^-46 of
    the exact S/N x 100 and equals 100 exactly when S = N. The report is
    returned whenever every result line can be formatted, and a failing
    write surfaces as itself. *)
Theorem generate_report_counts self results clock w :
  (∃ r out w',
     generate_report self results clock None w = (out, w')
     ∧ fs w' !! report_file self = Some (Data (LoadOk (report_value r)))
     ∧ (forallb printable (Py.dict_values results) = true → out = Ret r)
     ∧ r_results r = results
     ∧ total_tests (r_summary r) = Z.of_nat (length results)
     ∧ successful_tests (r_summary r) = Z.of_nat (successes results)
     ∧ failed_tests (r_summary r)
       = Z.of_nat (length results - successes results)
     ∧ successful_tests (r_summary r) + failed_tests (r_summary r)
       = total_tests (r_summary r)
     ∧ match results with
       | [] => success_rate (r_summary r) = NInt 0 ∧ out = Ret r
       | _ => success_rate (r_summary r)
              = NFloat (float_rate (Z.of_nat (successes results))
                                   (Z.of_nat (length results)))
       end
     ∧ ((length results <= 200)%nat →
        (Qabs (num_Q (success_rate (r_summary r)) - spec_rate results)
         <= 1 # 2 ^ 46)%Q
        ∧ (num_eqb (success_rate (r_summary r)) 100 = true
           ↔ results ≠ [] ∧ successes results = length results)))
  ∧ (∀ wf, fst (generate_report self results clock (Some wf) w)
           = Raise (Exception (fault_message wf))).
Proof.
  split.
  - destruct (generate_report_ok self results clock w)
      as (r & out & -> & Hout & Hres & Htot & Hsucc & Hfail & Hrate).
    assert (Hle := successes_le results).
    exists r, out. eexists. split; [reflexivity|]. cbn [fs].
    split; [apply lookup_insert_eq|].
    split; [intros Hp; by rewrite Hp in Hout|].
    split; [exact Hres|]. split; [exact Htot|]. split; [exact Hsucc|].
    split; [rewrite Hfail; lia|]. split; [rewrite Hsucc, Hfail, Htot; lia|].
    split.
    + rewrite Hrate. unfold reported_rate.
      destruct results as [|x rest] eqn:E;
        [split; [reflexivity|exact Hout]|rewrite <- E].
      replace (Z.ltb 0 (Z.of_nat (length results))) with true
        by (symmetry; apply Z.ltb_lt; rewrite E; simpl; lia).
      reflexivity.
    + intros Hlen. rewrite Hrate.
      destruct (reported_rate_decisions results Hlen) as (H100 & _ & Herr).
      split; [exact Herr|exact H100].
  - intros wf. by rewrite generate_report_fault.
Qed.

Lemma generate_report_counts_witness :
  ∃ r,
    fst (generate_report Scenario.self
           [("pt-BR", [("status", Py.VStr "success")]);
            ("es-419", [("status", Py.VStr "error")]);
            ("fr-FR", [("status", Py.VStr "success")])]
           1700000100 None Scenario.w0) = Ret r
    ∧ total_tests (r_summary r) = 3
    ∧ successful_tests (r_summary r) = 2
    ∧ failed_tests (r_summary r) = 1
    ∧ success_rate (r_summary r) = NFloat (float_rate 2 3).
Proof.
  destruct (generate_report_counts Scenario.self
              [("pt-BR", [("status", Py.VStr "success")]);
               ("es-419", [("status", Py.VStr "error")]);
               ("fr-FR", [("status", Py.VStr "success")])]
              1700000100 Scenario.w0)
    as [(r & out & w' & -> & _ & Hout & _ & Htot & Hsucc & Hfail & _ & Hrate & _) _].
  exists r. split; [exact (Hout eq_refl)|].
  split; [exact Htot|]. split; [exact Hsucc|]. split; [exact Hfail|].
  exact Hrate.
Defined.

(** The rate is not the exact ratio: for 11 successes in 20 verdicts the
    exact value is 55, and the report holds the double next above it. *)
Lemma success_rate_is_rounded :
  ∃ r,
    fst (generate_report Scenario.self (Scenario.mixed 11 20) 1700000100 None
           Scenario.w0) = Ret r
    ∧ total_tests (r_summary r) = 20
    ∧ successful_tests (r_summary r) = 11
    ∧ (spec_rate (Scenario.mixed 11 20) == 55)%Q
    ∧ num_eqb (success_rate (r_summary r)) 55 = false
    ∧ (num_Q (success_rate (r_summary r)) == 55 + (1 # 2 ^ 47))%Q.
Proof.
  eexists. split; [vm_compute; reflexivity|].
  repeat split; vm_compute; reflexivity.
Qed.

(** ** The exit code *)

Lemma run_all_tests_total self T pf L jobs w :
  ∃ results w', run_all_tests self T pf (Some L) jobs w = (Ret results, w').
Proof.
  unfold run_all_tests.
  destruct (run_all_loop_spec self T pf jobs L 0%nat [] w)
    as (vs & w' & _ & _ & ->).
  eauto.
Qed.

Lemma init_ok a b w :
  b_mkdir b = None →
  ∃ self, __init__ (slicer_path a) (tutorial a) (output a) b w = (Ret self, w).
Proof. intros H. unfold __init__. rewrite H. eexists. reflexivity. Qed.

(** Before the batch: a missing executable ends the driver with
    [sys.exit(1)], and a fault while the runner is built (the output
    directory cannot be created) is outside the [try] block, so it leaves
    [main] as a plain exception, which the interpreter turns into exit
    status 1. *)
Lemma main_before_the_batch a b w :
  (fs w !! slicer_path a = None → main a b w = (Raise (SystemExit 1), w))
  ∧ (∀ msg, is_Some (fs w !! slicer_path a) → b_mkdir b = Some msg →
            main a b w = (Raise (Exception msg), w)
            ∧ exit_status (fst (main a b w)) = 1).
Proof.
  split.
  - intros Hno. unfold main. munfold. rewrite Hno.
    rewrite bool_decide_eq_false_2 by (intros [? ?]; discriminate).
    reflexivity.
  - intros msg Hexe Hmk.
    assert (H : main a b w = (Raise (Exception msg), w)).
    { unfold main, __init__. munfold. cbn [fs].
      rewrite (bool_decide_eq_true_2 _ Hexe). cbn [negb]. rewrite Hmk.
      by destruct w. }
    by rewrite H.
Qed.

(** The exit code [main] chooses once the report is returned. *)
Lemma main_in_the_try_block a b w self results w1 :
  is_Some (fs w !! slicer_path a) →
  __init__ (slicer_path a) (tutorial a) (output a) b w = (Ret self, w) →
  run_all_tests self (timeout a) (b_platform b) (Some (languages a))
    (b_jobs b) w = (Ret results, w1) →
  match b_report_write b with
  | Some _ => exit_status (fst (main a b w)) = 3
  | None =>
      if forallb printable (Py.dict_values results) then
        exit_status (fst (main a b w))
        = (if num_eqb (reported_rate results) 100 then 0
           else if num_geb (reported_rate results) 50 then 1 else 2)
      else exit_status (fst (main a b w)) = 3
  end.
Proof.
  intros Hexe Hinit Hrun.
  unfold main. munfold. cbn [fs].
  rewrite (bool_decide_eq_true_2 _ Hexe). cbn [negb].
  rewrite Hinit, Hrun.
  destruct (b_report_write b) as [wf|].
  - rewrite generate_report_fault. reflexivity.
  - destruct (generate_report_ok self results (b_report_time b) w1)
      as (r & out & -> & Hout & _ & _ & _ & _ & Hrate).
    destruct (forallb printable (Py.dict_values results));
      [subst out; rewrite Hrate|destruct Hout as [msg ->]; reflexivity].
    destruct (num_eqb (reported_rate results) 100); [reflexivity|].
    destruct (num_geb (reported_rate results) 50); reflexivity.
Qed.

(** C5. A missing executable and a fault while the runner is built (the
    output directory cannot be created) both come before the [try] block
    and end the driver with exit status 1. Once the runner is built, the
    batch runs and the exit code is 3 when the [try] block faults (the
    report cannot be written, or one of its lines cannot be formatted),
    and otherwise 0 when the reported success rate equals 100, 1 when it
    is at least 50 but not 100, and 2 when it is below 50. For up to 200
    verdicts the reported rate equals 100 exactly when there is at least
    one verdict and all have status success, and is at least 50 exactly
    when there is at least one and at least half have. *)
Theorem main_exit_code a b w :
  (fs w !! slicer_path a = None → exit_status (fst (main a b w)) = 1)
  ∧ (is_Some (fs w !! slicer_path a) → is_Some (b_mkdir b) →
     exit_status (fst (main a b w)) = 1)
  ∧ (is_Some (fs w !! slicer_path a) → b_mkdir b = None →
     ∃ self results w1,
       __init__ (slicer_path a) (tutorial a) (output a) b w = (Ret self, w)
       ∧ run_all_tests self (timeout a) (b_platform b) (Some (languages a))
           (b_jobs b) w = (Ret results, w1)
       ∧ match b_report_write b with
         | Some _ => exit_status (fst (main a b w)) = 3
         | None =>
             if forallb printable (Py.dict_values results) then
               (num_eqb (reported_rate results) 100 = true
                ∧ exit_status (fst (main a b w)) = 0)
               ∨ (num_eqb (reported_rate results) 100 = false
                  ∧ num_geb (reported_rate results) 50 = true
                  ∧ exit_status (fst (main a b w)) = 1)
               ∨ (num_eqb (reported_rate results) 100 = false
                  ∧ num_geb (reported_rate results) 50 = false
                  ∧ exit_status (fst (main a b w)) = 2)
             else exit_status (fst (main a b w)) = 3
         end
       ∧ ((length results <= 200)%nat →
          (num_eqb (reported_rate results) 100 = true
           ↔ results ≠ [] ∧ successes results = length results)
          ∧ (num_geb (reported_rate results) 50 = true
             ↔ results ≠ [] ∧ (length results <= 2 * successes results)%nat))).
Proof.
  destruct (main_before_the_batch a b w) as [Hmissing Hmkdir].
  split; [|split].
  - intros Hno. by rewrite (Hmissing Hno).
  - intros Hexe [msg Hmk]. by destruct (Hmkdir msg Hexe Hmk).
  - intros Hexe Hmk.
    destruct (init_ok a b w Hmk) as (self & Hinit).
    destruct (run_all_tests_total self (timeout a) (b_platform b) (languages a)
                (b_jobs b) w) as (results & w1 & Hrun).
    exists self, results, w1. split; [exact Hinit|]. split; [exact Hrun|].
    split.
    + pose proof (main_in_the_try_block a b w self results w1 Hexe Hinit Hrun)
        as H.
      destruct (b_report_write b); [exact H|].
      destruct (forallb printable (Py.dict_values results)); [|exact H].
      rewrite H.
      destruct (num_eqb (reported_rate results) 100); [by left|].
      destruct (num_geb (reported_rate results) 50);
        [right; left|right; right]; by repeat split.
    + intros Hlen.
      destruct (reported_rate_decisions results Hlen) as (H100 & H50 & _).
      by split.
Qed.

Lemma main_exit_code_witness :
  exit_status (fst (main (Scenario.args_of ["pt-BR"])
                      (Scenario.batch_of (Scenario.all_good ["pt-BR"]) None)
                      Scenario.w0)) = 0.
Proof.
  destruct (main_exit_code (Scenario.args_of ["pt-BR"])
              (Scenario.batch_of (Scenario.all_good ["pt-BR"]) None)
              Scenario.w0)
    as (_ & _ & Hbatch).
  destruct Hbatch as (self & results & w1 & Hinit & Hrun & Hcase & _).
  - vm_compute. eexists. reflexivity.
  - reflexivity.
  - vm_compute in Hinit. injection Hinit as <-.
    vm_compute in Hrun. injection Hrun as <- _.
    cbn [Scenario.batch_of b_report_write forallb Py.dict_values map snd] in Hcase.
    change (printable _) with true in Hcase. cbn [andb] in Hcase.
    destruct Hcase as [[_ H]|[(H & _ & _)|(H & _ & _)]]; [exact H| |];
      vm_compute in H; discriminate H.
Defined.

(** A fault of the top-level driver that does not give 3: the output
    directory cannot be created, the exception leaves [main] uncaught and
    the interpreter exits with status 1. *)
Lemma runner_construction_fault_exits_1 :
  main (Scenario.args_of ["pt-BR"; "fr-FR"])
       (Batch "/work" (Some "[Errno 13] Permission denied: '/out'") "Linux"
          (Scenario.all_good ["pt-BR"; "fr-FR"]) 1700000100 None)
       Scenario.w0
  = (Raise (Exception "[Errno 13] Permission denied: '/out'"), Scenario.w0)
  ∧ exit_status
      (fst (main (Scenario.args_of ["pt-BR"; "fr-FR"])
              (Batch "/work" (Some "[Errno 13] Permission denied: '/out'")
                 "Linux" (Scenario.all_good ["pt-BR"; "fr-FR"]) 1700000100
                 None)
              Scenario.w0)) = 1.
Proof. split; vm_compute; reflexivity. Qed.





(** ** The benign non-zero exit of the configure phase *)

Lemma configure_loop_reads_all start p ticks acc w :
  Forall (fun t => Qgt_bool (now t - start) (inject_Z 30) = false
                   ∧ rd t ≠ ReadRaises) ticks →
  ∃ new, configure_loop start p ticks acc w
         = (Ret (CfgExited (acc ++ captured ticks)),
            World (fs w) (trace w ++ new)).
Proof.
  intros Hall. revert acc w.
  induction Hall as [|t ticks [Hin Hrd] _ IH]; intros acc w; simpl.
  - exists []. munfold. rewrite !app_nil_r. by destruct w.
  - rewrite Hin. destruct (rd t) as [line|]; [|congruence].
    destruct (nonempty line).
    + destruct (IH (acc ++ [Py.strip line]) w) as (new & ->).
      exists new. by rewrite <- app_assoc.
    + munfold.
      destruct (IH acc (World (fs w) (trace w ++ [ASleep (1 # 10)])))
        as (new & ->).
      cbn [fs trace]. eexists. rewrite <- app_assoc. reflexivity.
Qed.

(** What the override does: when the child is read to its end and exits
    with a non-zero code, configure succeeds exactly when one of the two
    evidence tests finds its pattern in a captured line. *)
Lemma configure_benign_nonzero_override self lc j w path p :
  j_cfg_script j = CreateOk path →
  j_cfg j = Spawned p →
  Forall (fun t => Qgt_bool (now t - p_start p) (inject_Z 30) = false
                   ∧ rd t ≠ ReadRaises) (p_ticks p) →
  p_rc p ≠ 0 →
  fst (_configure_language self lc j w)
  = Ret (config_found (captured (p_ticks p))
         || success_msg_found (captured (p_ticks p))).
Proof.
  intros Hc Hp Hall Hrc. unfold _configure_language. rewrite Hc, Hp.
  unfold create_script, Popen, wait_for_exit, unlink.
  munfold. cbn [fs trace].
  match goal with |- context [configure_loop ?s ?p ?t ?a ?w] =>
    destruct (configure_loop_reads_all s p t a w Hall) as (new & ->) end.
  cbn [fs trace app].
  apply Z.eqb_neq in Hrc. rewrite Hrc.
  destruct (config_found _ || success_msg_found _); cbn [fs trace];
    rewrite lookup_insert_eq; destruct (j_cfg_unlink j); reflexivity.
Qed.

(** The requested locale plays no part in the outcome of configure. *)
Lemma configure_ignores_locale self lc1 lc2 j w :
  _configure_language self lc1 j w = _configure_language self lc2 j w.
Proof. reflexivity. Qed.

(** C1. The override tests for the literal "pt-BR", not for the requested
    locale. With "fr-FR" requested and a non-zero exit, a captured line
    confirming fr-FR is not accepted: configure returns [False] although
    the marker for the requested locale is there. The same request is
    accepted on a line confirming pt-BR, which is no marker for fr-FR. *)
Theorem configure_marker_is_fixed_locale :
  spec_marker_for "fr-FR" ["Linguagem: fr-FR, i18n habilitado: True"] = true
  ∧ fst (_configure_language Scenario.self "fr-FR"
           (Scenario.job_of
              (Scenario.exits 1 ["Linguagem: fr-FR, i18n habilitado: True
"])
              (Scenario.exits 0 []) Untouched)
           Scenario.w0) = Ret false
  ∧ spec_marker_for "fr-FR" ["Linguagem: pt-BR, i18n habilitado: True"] = false
  ∧ fst (_configure_language Scenario.self "fr-FR"
           (Scenario.job_of
              (Scenario.exits 1 ["Linguagem: pt-BR, i18n habilitado: True
"])
              (Scenario.exits 0 []) Untouched)
           Scenario.w0) = Ret true.
Proof. repeat split; vm_compute; reflexivity. Qed.

(** ** A run that outlives its timeout *)

Lemma app_mid {A} (x y mid d e : list A) :
  ((x ++ y ++ mid) ++ d) ++ e = (x ++ y) ++ mid ++ (d ++ e).
Proof. by rewrite <- !app_assoc. Qed.

Lemma tutorial_loop_times_out T start p pre t post acc w :
  Forall (fun t => Qgt_bool (now t - start) (inject_Z T) = false
                   ∧ rd t ≠ ReadRaises) pre →
  Qgt_bool (now t - start) (inject_Z T) = true →
  ∃ new,
    tutorial_loop T start p (pre ++ t :: post) acc w
    = (Ret (Some (snd (escalation (p_grace p))), acc ++ captured pre),
       World (fs w) (trace w ++ new ++ fst (escalation (p_grace p)))).
Proof.
  intros Hall Ht. revert acc w.
  induction Hall as [|t0 pre [Hin Hrd] _ IH]; intros acc w; simpl.
  - rewrite Ht. exists []. unfold escalation.
    destruct (p_grace p); munfold; cbn [fs trace fst snd app];
      rewrite <- ?app_assoc, app_nil_r; reflexivity.
  - rewrite Hin. destruct (rd t0) as [line|]; [|congruence].
    destruct (nonempty line).
    + destruct (IH (acc ++ [Py.strip line]) w) as (new & ->).
      exists new. by rewrite <- app_assoc.
    + munfold.
      destruct (IH acc (World (fs w) (trace w ++ [ASleep (1 # 10)])))
        as (new & ->).
      cbn [fs trace]. exists (ASleep (1 # 10) :: new).
      rewrite <- app_assoc. reflexivity.
Qed.

(** Every run that exceeds its budget and leaves no artifact: terminate is
    sent and the grace period waited, the child is killed if it survives,
    the recorded time is above the budget, and the status is "error". *)
Lemma timed_out_run_verdict self T pf lc j w path p pre t post :
  j_run_script j = CreateOk path →
  j_run j = Spawned p →
  p_ticks p = pre ++ t :: post →
  Forall (fun t => Qgt_bool (now t - p_start p) (inject_Z T) = false
                   ∧ rd t ≠ ReadRaises) pre →
  Qgt_bool (now t - p_start p) (inject_Z T) = true →
  (now t <= p_end p)%Q →
  fs_at_check self lc j w path !! result_file self lc = None →
  ∃ v w' before after,
    _run_tutorial_test self T pf lc j w = (Ret v, w')
    ∧ trace w' = before ++ fst (escalation (p_grace p)) ++ after
    ∧ Py.get "status" v = Py.VStr "error"
    ∧ Py.get "return_code" v = Py.VInt (snd (escalation (p_grace p)))
    ∧ Py.get "execution_time" v = Py.VFloat (p_end p - p_start p)
    ∧ (inject_Z T < p_end p - p_start p)%Q.
Proof.
  intros Hc Hp Hticks Hall Ht Hclock Habs. unfold fs_at_check in Habs.
  unfold _run_tutorial_test. rewrite Hc, Hp.
  unfold create_script, Popen, unlink, path_exists, json_load, setitem.
  munfold. cbn [fs trace]. rewrite Hticks.
  match goal with |- context [tutorial_loop _ _ _ _ ?a ?w0] =>
    destruct (tutorial_loop_times_out T (p_start p) p pre t post a w0 Hall Ht)
      as (new & ->) end.
  cbn [fs trace]. rewrite Habs.
  rewrite bool_decide_eq_false_2 by (intros [? ?]; discriminate).
  cbn [fs trace].
  assert (Hlt : (inject_Z T < p_end p - p_start p)%Q).
  { unfold Qgt_bool in Ht. apply negb_true_iff in Ht.
    apply Qlt_le_trans with (now t - p_start p)%Q.
    - apply Qnot_le_lt. intros H. apply Qle_bool_iff in H. congruence.
    - unfold Qminus. apply Qplus_le_compat; [exact Hclock|apply Qle_refl]. }
  match goal with |- context [match ?m !! path with _ => _ end] =>
    destruct (m !! path); [destruct (j_run_unlink j)|] end;
    cbn [fs trace]; eexists _, _, _, _;
    (split; [reflexivity|]);
    (split; [cbn [trace]; apply app_mid|]);
    repeat split; exact Hlt.
Qed.

(** C2. The child is still running 301 seconds into a 300 second budget
    and leaves no artifact. The driver sends terminate, waits five seconds,
    kills the child and waits for it; the elapsed time it records (306)
    is above the budget. But the verdict's status is "error", not
    "timeout". *)
Theorem timeout_run_reports_error :
  ∃ v w' v2 w2,
    _run_tutorial_test Scenario.self 300 "Linux" "fr-FR"
      (Scenario.job_of (Scenario.exits 0 []) Scenario.hangs Untouched)
      Scenario.w0 = (Ret v, w')
    ∧ trace w'
      = [ACreate Scenario.run_path;
         ASpawn [Scenario.slicer; "--no-splash"; "--no-main-window";
                 "--disable-cli-modules"; "--python-script"; Scenario.run_path];
         ASleep (1 # 10);
         ATerminate; AWaitTimeout 5; AKill; AWait;
         AExists (result_file Scenario.self "fr-FR") false;
         AUnlink Scenario.run_path]
    ∧ Py.get "execution_time" v = Py.VFloat 306
    ∧ Py.get "return_code" v = Py.VInt (-9)
    ∧ Py.get "error" v = Py.VStr "No result file found. Return code: -9"
    ∧ Py.get "status" v = Py.VStr "error"
    ∧ Py.get "status" v ≠ Py.VStr "timeout"
    ∧ run_test_for_language Scenario.self 300 "Linux" "fr-FR"
        (Scenario.job_of (Scenario.exits 0 []) Scenario.hangs Untouched)
        Scenario.w0 = (Ret v2, w2)
    ∧ Py.get "status" v2 = Py.VStr "error".
Proof.
  eexists _, _, _, _. split; [vm_compute; reflexivity|].
  do 6 (split; [first [reflexivity|discriminate]|]).
  split; [vm_compute; reflexivity|reflexivity].
Qed.

(** * Further properties of the driver *)

(** ** The supervision loops, shape by shape *)

Lemma configure_loop_quiet start p ticks acc w :
  Forall (quiet 30 start) ticks →
  configure_loop start p ticks acc w
  = (Ret (CfgExited (acc ++ captured ticks)),
     World (fs w) (trace w ++ idle_events ticks)).
Proof.
  intros Hall. revert acc w.
  induction Hall as [|t ticks [Hin Hrd] _ IH]; intros acc w; simpl.
  - munfold. rewrite !app_nil_r. by destruct w.
  - rewrite Hin. destruct (rd t) as [line|]; [|congruence].
    destruct (nonempty line).
    + rewrite IH. by rewrite <- app_assoc.
    + munfold. rewrite IH. cbn [fs trace]. by rewrite <- app_assoc.
Qed.

Lemma configure_loop_overrun start p pre t post acc w :
  Forall (quiet 30 start) pre →
  overrun 30 start t →
  configure_loop start p (pre ++ t :: post) acc w
  = (Ret CfgTimedOut,
     World (fs w) (trace w ++ idle_events pre ++ cfg_escalation (p_grace p))).
Proof.
  intros Hall Ht. revert acc w.
  induction Hall as [|t0 pre [Hin Hrd] _ IH]; intros acc w; simpl.
  - rewrite Ht. unfold cfg_escalation.
    destruct (p_grace p); munfold; cbn [fs trace app];
      rewrite <- ?app_assoc; reflexivity.
  - rewrite Hin. destruct (rd t0) as [line|]; [|congruence].
    destruct (nonempty line).
    + by rewrite IH.
    + munfold. rewrite IH. cbn [fs trace]. by rewrite <- app_assoc.
Qed.

Lemma configure_loop_broken start p pre t post acc w :
  Forall (quiet 30 start) pre →
  Qgt_bool (now t - start) (inject_Z 30) = false →
  rd t = ReadRaises →
  configure_loop start p (pre ++ t :: post) acc w
  = (Ret (CfgReadBroke (acc ++ captured pre)),
     World (fs w) (trace w ++ idle_events pre)).
Proof.
  intros Hall Ht Hrd. revert acc w.
  induction Hall as [|t0 pre [Hin Hrd0] _ IH]; intros acc w; simpl.
  - rewrite Ht, Hrd. munfold. rewrite !app_nil_r. by destruct w.
  - rewrite Hin. destruct (rd t0) as [line|]; [|congruence].
    destruct (nonempty line).
    + rewrite IH. by rewrite <- app_assoc.
    + munfold. rewrite IH. cbn [fs trace]. by rewrite <- app_assoc.
Qed.

Lemma tutorial_loop_quiet T start p ticks acc w :
  Forall (quiet T start) ticks →
  tutorial_loop T start p ticks acc w
  = (Ret (Some (p_rc p), acc ++ captured ticks),
     World (fs w) (trace w ++ idle_events ticks)).
Proof.
  intros Hall. revert acc w.
  induction Hall as [|t ticks [Hin Hrd] _ IH]; intros acc w; simpl.
  - munfold. rewrite !app_nil_r. by destruct w.
  - rewrite Hin. destruct (rd t) as [line|]; [|congruence].
    destruct (nonempty line).
    + rewrite IH. by rewrite <- app_assoc.
    + munfold. rewrite IH. cbn [fs trace]. by rewrite <- app_assoc.
Qed.

Lemma tutorial_loop_overrun T start p pre t post acc w :
  Forall (quiet T start) pre →
  overrun T start t →
  tutorial_loop T start p (pre ++ t :: post) acc w
  = (Ret (Some (snd (escalation (p_grace p))), acc ++ captured pre),
     World (fs w) (trace w ++ idle_events pre ++ fst (escalation (p_grace p)))).
Proof.
  intros Hall Ht. revert acc w.
  induction Hall as [|t0 pre [Hin Hrd] _ IH]; intros acc w; simpl.
  - rewrite Ht. unfold escalation.
    destruct (p_grace p); munfold; cbn [fs trace fst snd app];
      rewrite <- ?app_assoc, app_nil_r; reflexivity.
  - rewrite Hin. destruct (rd t0) as [line|]; [|congruence].
    destruct (nonempty line).
    + rewrite IH. by rewrite <- app_assoc.
    + munfold. rewrite IH. cbn [fs trace]. by rewrite <- app_assoc.
Qed.

Lemma tutorial_loop_broken T start p pre t post acc w :
  Forall (quiet T start) pre →
  Qgt_bool (now t - start) (inject_Z T) = false →
  rd t = ReadRaises →
  tutorial_loop T start p (pre ++ t :: post) acc w
  = (Ret (None, acc ++ captured pre),
     World (fs w) (trace w ++ idle_events pre)).
Proof.
  intros Hall Ht Hrd. revert acc w.
  induction Hall as [|t0 pre [Hin Hrd0] _ IH]; intros acc w; simpl.
  - rewrite Ht, Hrd. munfold. rewrite !app_nil_r. by destruct w.
  - rewrite Hin. destruct (rd t0) as [line|]; [|congruence].
    destruct (nonempty line).
    + rewrite IH. by rewrite <- app_assoc.
    + munfold. rewrite IH. cbn [fs trace]. by rewrite <- app_assoc.
Qed.

(** ** Each phase, given how its loop ended *)

Lemma configure_eval self lc j w path p e new :
  j_cfg_script j = CreateOk path →
  j_cfg j = Spawned p →
  (∀ w0, configure_loop (p_start p) p (p_ticks p) [] w0
         = (Ret e, World (fs w0) (trace w0 ++ new))) →
  _configure_language self lc j w
  = (Ret (cfg_result p e),
     World (if j_cfg_unlink j then delete path (<[path := Script]> (fs w))
            else <[path := Script]> (fs w))
           (trace w ++ [ACreate path; ASpawn (cfg_cmd self path)] ++ new
            ++ cfg_wait p e ++ [AUnlink path])).
Proof.
  intros Hc Hp Hloop. unfold _configure_language. rewrite Hc, Hp.
  unfold create_script, Popen, wait_for_exit, unlink, cfg_cmd.
  munfold. cbn [fs trace]. rewrite Hloop. cbn [fs trace].
  unfold cfg_result, cfg_wait, cfg_returncode, grace_code.
  destruct e as [ls|ls|]; cbn [fs trace].
  all: repeat match goal with
       | |- context [p_grace ?p] => destruct (p_grace p); cbn [fs trace]
       | |- context [Z.eqb ?a 0] => destruct (Z.eqb a 0); cbn [fs trace orb]
       | |- context [config_found ?a || success_msg_found ?b] =>
           destruct (config_found a || success_msg_found b); cbn [fs trace]
       end.
  all: rewrite lookup_insert_eq; destruct (j_cfg_unlink j); cbn [fs trace];
    f_equal; f_equal; rewrite <- ?app_assoc; reflexivity.
Qed.

Lemma run_eval self T pf lc j w path p rc ls new :
  j_run_script j = CreateOk path →
  j_run j = Spawned p →
  (∀ w0, tutorial_loop T (p_start p) p (p_ticks p) [] w0
         = (Ret (rc, ls), World (fs w0) (trace w0 ++ new))) →
  _run_tutorial_test self T pf lc j w
  = (Ret (verdict_of_check self lc
            (fs_at_check self lc j w path !! result_file self lc)
            rc ls (p_end p - p_start p)),
     World (after_unlink (j_run_unlink j) path (fs_at_check self lc j w path))
           (trace w ++ [ACreate path; ASpawn (run_cmd self pf path)] ++ new
            ++ check_events (result_file self lc)
                 (fs_at_check self lc j w path !! result_file self lc)
            ++ [AUnlink path])).
Proof.
  intros Hc Hp Hloop. unfold _run_tutorial_test. rewrite Hc, Hp.
  unfold create_script, Popen, unlink, path_exists, json_load, setitem,
    run_cmd, fs_at_check, after_unlink, verdict_of_check, check_events,
    fault_verdict, missing_verdict, merged_verdict, not_a_dict_message.
  munfold. cbn [fs trace]. rewrite Hloop. cbn [fs trace].
  set (F0 := apply_effect (result_file self lc) (j_artifact j)
               (<[path:=Script]> (fs w))).
  destruct (F0 !! result_file self lc) as [f|] eqn:Hf.
  - rewrite bool_decide_eq_true_2 by eauto. cbn [fs trace]. rewrite !Hf.
    destruct (load_of (Some f)) as [msg|v]; cbn [fs trace];
      [|destruct v; cbn [fs trace]].
    all: destruct (F0 !! path); [destruct (j_run_unlink j)|]; cbn [fs trace];
      f_equal; f_equal; rewrite <- ?app_assoc; reflexivity.
  - rewrite bool_decide_eq_false_2 by (intros [? ?]; discriminate).
    cbn [fs trace].
    destruct (F0 !! path); [destruct (j_run_unlink j)|]; cbn [fs trace];
      f_equal; f_equal; rewrite <- ?app_assoc; reflexivity.
Qed.

Lemma run_eval_spawn_fails self T pf lc j w path msg :
  j_run_script j = CreateOk path →
  j_run j = SpawnRaises msg →
  _run_tutorial_test self T pf lc j w
  = (Ret (fault_verdict self lc msg),
     World (if j_run_unlink j then delete path (<[path := Script]> (fs w))
            else <[path := Script]> (fs w))
           (trace w ++ [ACreate path; ASpawn (run_cmd self pf path);
                        AUnlink path])).
Proof.
  intros Hc Hp. unfold _run_tutorial_test. rewrite Hc, Hp.
  unfold create_script, Popen, unlink, run_cmd, fault_verdict.
  munfold. cbn [fs trace]. rewrite lookup_insert_eq.
  destruct (j_run_unlink j); cbn [fs trace];
    f_equal; f_equal; rewrite <- ?app_assoc; reflexivity.
Qed.

Lemma configure_eval_spawn_fails self lc j w path msg :
  j_cfg_script j = CreateOk path →
  j_cfg j = SpawnRaises msg →
  _configure_language self lc j w
  = (Ret false,
     World (if j_cfg_unlink j then delete path (<[path := Script]> (fs w))
            else <[path := Script]> (fs w))
           (trace w ++ [ACreate path; ASpawn (cfg_cmd self path);
                        AUnlink path])).
Proof.
  intros Hc Hp. unfold _configure_language. rewrite Hc, Hp.
  unfold create_script, Popen, unlink, cfg_cmd.
  munfold. cbn [fs trace]. rewrite lookup_insert_eq.
  destruct (j_cfg_unlink j); cbn [fs trace];
    f_equal; f_equal; rewrite <- ?app_assoc; reflexivity.
Qed.

Lemma spawns_app a b : spawns (a ++ b) = (spawns a + spawns b)%nat.
Proof.
  induction a as [|x a IH]; [reflexivity|]. destruct x; simpl; by rewrite ?IH.
Qed.

(** A list of actions that creates, rewrites or removes no path but
    [path]. *)
Lemma writes_app path (a b : list action) :
  (∀ x q, In x a → written x = Some q → q = path) →
  (∀ x q, In x b → written x = Some q → q = path) →
  ∀ x q, In x (a ++ b) → written x = Some q → q = path.
Proof. intros Ha Hb x q Hin. apply in_app_or in Hin as [H|H]; eauto. Qed.

Lemma writes_none path (a : list action) :
  Forall (fun x => written x = None) a →
  ∀ x q, In x a → written x = Some q → q = path.
Proof.
  intros Hall x q Hin Hw. rewrite List.Forall_forall in Hall.
  rewrite (Hall x Hin) in Hw. discriminate.
Qed.

(** Whatever its ticks, a loop ends in some way, the same in every world;
    it spawns nothing and touches no path. *)
Lemma configure_loop_uniform start p ticks acc :
  ∃ e new, (∀ w, configure_loop start p ticks acc w
                 = (Ret e, World (fs w) (trace w ++ new)))
           ∧ spawns new = 0%nat
           ∧ Forall (fun x => written x = None) new.
Proof.
  revert acc. induction ticks as [|t ticks IH]; intros acc; simpl.
  - exists (CfgExited acc), []. split; [|split; [reflexivity|constructor]].
    intros w. munfold. rewrite app_nil_r. by destruct w.
  - destruct (Qgt_bool _ _).
    + destruct (p_grace p); eexists _, _; (split; [|shelve]); intros w;
        munfold; cbn [fs trace]; rewrite <- ?app_assoc; reflexivity.
      Unshelve. all: split; [reflexivity|by repeat constructor].
    + destruct (rd t) as [line|].
      * destruct (nonempty line); [apply IH|].
        destruct (IH acc) as (e & new & H & Hs & Hw).
        exists e, (ASleep (1 # 10) :: new).
        split; [|split; [exact Hs|by constructor]].
        intros w. munfold. rewrite H. cbn [fs trace]. by rewrite <- app_assoc.
      * exists (CfgReadBroke acc), [].
        split; [|split; [reflexivity|constructor]].
        intros w. munfold. rewrite app_nil_r. by destruct w.
Qed.

Lemma tutorial_loop_uniform T start p ticks acc :
  ∃ r new, (∀ w, tutorial_loop T start p ticks acc w
                 = (Ret r, World (fs w) (trace w ++ new)))
           ∧ spawns new = 0%nat
           ∧ Forall (fun x => written x = None) new.
Proof.
  revert acc. induction ticks as [|t ticks IH]; intros acc; simpl.
  - eexists _, []. split; [|split; [reflexivity|constructor]].
    intros w. munfold. rewrite app_nil_r. by destruct w.
  - destruct (Qgt_bool _ _).
    + destruct (p_grace p); eexists _, _; (split; [|shelve]); intros w;
        munfold; cbn [fs trace]; rewrite <- ?app_assoc; reflexivity.
      Unshelve. all: split; [reflexivity|by repeat constructor].
    + destruct (rd t) as [line|].
      * destruct (nonempty line); [apply IH|].
        destruct (IH acc) as (e & new & H & Hs & Hw).
        exists e, (ASleep (1 # 10) :: new).
        split; [|split; [exact Hs|by constructor]].
        intros w. munfold. rewrite H. cbn [fs trace]. by rewrite <- app_assoc.
      * eexists _, []. split; [|split; [reflexivity|constructor]].
        intros w. munfold. rewrite app_nil_r. by destruct w.
Qed.

(** ** The configure phase, case by case *)

(** X1. A configure child that is read to its end within the 30 seconds:
    configure answers [True] exactly when the exit code is 0 or one of the
    two evidence patterns is in a captured line. It waits for the exit and
    never signals the child. *)
Theorem configure_decides_on_exit_code_then_evidence self lc j w path p :
  j_cfg_script j = CreateOk path →
  j_cfg j = Spawned p →
  Forall (quiet 30 (p_start p)) (p_ticks p) →
  fst (_configure_language self lc j w)
  = Ret (Z.eqb (p_rc p) 0
         || config_found (captured (p_ticks p))
         || success_msg_found (captured (p_ticks p)))
  ∧ trace (snd (_configure_language self lc j w))
    = trace w ++ [ACreate path; ASpawn (cfg_cmd self path)]
      ++ idle_events (p_ticks p) ++ [AWaitTimeout 5; AUnlink path].
Proof.
  intros Hc Hp Hall.
  rewrite (configure_eval self lc j w path p
             (CfgExited (captured (p_ticks p))) (idle_events (p_ticks p)) Hc Hp).
  - split; reflexivity.
  - intros w0. by rewrite configure_loop_quiet.
Qed.

Lemma configure_decides_on_exit_code_then_evidence_witness :
  fst (_configure_language Scenario.self "es-419"
         (Scenario.job_of
            (Scenario.exits 3 ["[10:00:01] ✅ Configuração salva com sucesso
"; ""])
            (Scenario.exits 0 []) Untouched)
         Scenario.w0) = Ret true.
Proof.
  refine (proj1 (configure_decides_on_exit_code_then_evidence Scenario.self
                   "es-419"
                   (Scenario.job_of
                      (Scenario.exits 3 ["[10:00:01] ✅ Configuração salva com sucesso
"; ""])
                      (Scenario.exits 0 []) Untouched)
                   Scenario.w0 Scenario.cfg_path
                   (Scenario.exits 3 _) eq_refl eq_refl _)).
  repeat (constructor; [split; [reflexivity|discriminate]|]). constructor.
Defined.

(** X2. A configure child still running when the clock passes 30 seconds:
    configure sends terminate, sleeps two seconds, kills the child only if
    it is still alive, and answers [False] without waiting for the exit and
    whatever evidence it had captured by then. *)
Theorem configure_gives_up_after_30_seconds self lc j w path p pre t post :
  j_cfg_script j = CreateOk path →
  j_cfg j = Spawned p →
  p_ticks p = pre ++ t :: post →
  Forall (quiet 30 (p_start p)) pre →
  overrun 30 (p_start p) t →
  fst (_configure_language self lc j w) = Ret false
  ∧ trace (snd (_configure_language self lc j w))
    = trace w ++ [ACreate path; ASpawn (cfg_cmd self path)]
      ++ idle_events pre ++ cfg_escalation (p_grace p) ++ [AUnlink path].
Proof.
  intros Hc Hp Hticks Hall Ht.
  rewrite (configure_eval self lc j w path p CfgTimedOut
             (idle_events pre ++ cfg_escalation (p_grace p)) Hc Hp).
  - split; [reflexivity|]. cbn [snd trace cfg_wait app].
    by rewrite <- !app_assoc.
  - intros w0. rewrite Hticks. by rewrite configure_loop_overrun.
Qed.

Lemma configure_gives_up_after_30_seconds_witness :
  fst (_configure_language Scenario.self "pt-BR"
         (Scenario.job_of
            (Proc 0 [Tick 5 (ReadOk "✅ Configuração salva com sucesso
");
                     Tick 31 (ReadOk "")] 0 (ExitsInTime (-15)) 33)
            (Scenario.exits 0 []) Untouched)
         Scenario.w0) = Ret false.
Proof.
  refine (proj1 (configure_gives_up_after_30_seconds Scenario.self "pt-BR"
                   (Scenario.job_of
                      (Proc 0 [Tick 5 (ReadOk "✅ Configuração salva com sucesso
");
                               Tick 31 (ReadOk "")] 0 (ExitsInTime (-15)) 33)
                      (Scenario.exits 0 []) Untouched)
                   Scenario.w0 Scenario.cfg_path _
                   [Tick 5 (ReadOk "✅ Configuração salva com sucesso
")]
                   (Tick 31 (ReadOk "")) [] eq_refl eq_refl eq_refl _ _)).
  - repeat (constructor; [split; [reflexivity|discriminate]|]). constructor.
  - reflexivity.
Defined.

(** X3. When [readline] raises, configure stops reading, gives the child
    five seconds to exit and kills it after that, and then decides as
    usual: on the exit code it ends up with and on the lines captured
    before the fault. *)
Theorem configure_survives_a_read_fault self lc j w path p pre t post :
  j_cfg_script j = CreateOk path →
  j_cfg j = Spawned p →
  p_ticks p = pre ++ t :: post →
  Forall (quiet 30 (p_start p)) pre →
  Qgt_bool (now t - p_start p) (inject_Z 30) = false →
  rd t = ReadRaises →
  fst (_configure_language self lc j w)
  = Ret (Z.eqb (grace_code (p_grace p)) 0
         || config_found (captured pre) || success_msg_found (captured pre))
  ∧ trace (snd (_configure_language self lc j w))
    = trace w ++ [ACreate path; ASpawn (cfg_cmd self path)]
      ++ idle_events pre
      ++ cfg_wait p (CfgReadBroke (captured pre)) ++ [AUnlink path].
Proof.
  intros Hc Hp Hticks Hall Ht Hrd.
  rewrite (configure_eval self lc j w path p (CfgReadBroke (captured pre))
             (idle_events pre) Hc Hp).
  - split; reflexivity.
  - intros w0. rewrite Hticks. by rewrite configure_loop_broken.
Qed.

Lemma configure_survives_a_read_fault_witness :
  fst (_configure_language Scenario.self "fr-FR"
         (Scenario.job_of
            (Proc 0 [Tick 2 ReadRaises] 0 (StaysAlive (-9)) 8)
            (Scenario.exits 0 []) Untouched)
         Scenario.w0) = Ret false
  ∧ trace (snd (_configure_language Scenario.self "fr-FR"
         (Scenario.job_of
            (Proc 0 [Tick 2 ReadRaises] 0 (StaysAlive (-9)) 8)
            (Scenario.exits 0 []) Untouched)
         Scenario.w0))
    = [ACreate Scenario.cfg_path;
       ASpawn (cfg_cmd Scenario.self Scenario.cfg_path);
       AWaitTimeout 5; AKill; AWait; AUnlink Scenario.cfg_path].
Proof.
  refine (configure_survives_a_read_fault Scenario.self "fr-FR"
            (Scenario.job_of
               (Proc 0 [Tick 2 ReadRaises] 0 (StaysAlive (-9)) 8)
               (Scenario.exits 0 []) Untouched)
            Scenario.w0 Scenario.cfg_path _ [] (Tick 2 ReadRaises) []
            eq_refl eq_refl eq_refl _ eq_refl eq_refl).
  constructor.
Defined.

(** X4. When the configure child cannot be spawned, configure answers
    [False]; it has done nothing but create the script, attempt the spawn
    and unlink the script. *)
Theorem configure_reports_a_failed_spawn self lc j w path msg :
  j_cfg_script j = CreateOk path →
  j_cfg j = SpawnRaises msg →
  fst (_configure_language self lc j w) = Ret false
  ∧ trace (snd (_configure_language self lc j w))
    = trace w ++ [ACreate path; ASpawn (cfg_cmd self path); AUnlink path]
  ∧ (j_cfg_unlink j = true →
     fs (snd (_configure_language self lc j w)) !! path = None).
Proof.
  intros Hc Hp. rewrite (configure_eval_spawn_fails self lc j w path msg Hc Hp).
  split; [reflexivity|]. split; [reflexivity|].
  intros ->. apply lookup_delete_eq.
Qed.

Lemma configure_reports_a_failed_spawn_witness :
  fst (_configure_language Scenario.self "pt-BR"
         (Job (CreateOk Scenario.cfg_path)
              (SpawnRaises "[Errno 13] Permission denied") true
              (CreateOk Scenario.run_path) (Spawned (Scenario.exits 0 []))
              Untouched true)
         Scenario.w0) = Ret false.
Proof.
  exact (proj1 (configure_reports_a_failed_spawn Scenario.self "pt-BR"
                  (Job (CreateOk Scenario.cfg_path)
                       (SpawnRaises "[Errno 13] Permission denied") true
                       (CreateOk Scenario.run_path)
                       (Spawned (Scenario.exits 0 [])) Untouched true)
                  Scenario.w0 Scenario.cfg_path
                  "[Errno 13] Permission denied" eq_refl eq_refl)).
Defined.

(** X5. Whatever the child does, the driver's own file operations in the
    configure phase are on its transient script alone: it creates and
    unlinks that path, and creates, rewrites or removes no other. *)
Theorem configure_writes_only_its_script self lc j w path r w' :
  j_cfg_script j = CreateOk path →
  _configure_language self lc j w = (r, w') →
  ∃ new, trace w' = trace w ++ new
         ∧ In (ACreate path) new ∧ In (AUnlink path) new
         ∧ ∀ a q, In a new → written a = Some q → q = path.
Proof.
  intros Hc. destruct (j_cfg j) as [msg|p] eqn:Hp.
  - rewrite (configure_eval_spawn_fails self lc j w path msg Hc Hp).
    intros [= <- <-]. eexists. split; [reflexivity|].
    split; [simpl; auto|]. split; [simpl; auto|].
    intros a q [<-|[<-|[<-|[]]]]; simpl; congruence.
  - destruct (configure_loop_uniform (p_start p) p (p_ticks p) [])
      as (e & new & Hloop & _ & Hw).
    rewrite (configure_eval self lc j w path p e new Hc Hp Hloop).
    intros [= <- <-]. eexists. split; [reflexivity|].
    split; [simpl; auto|].
    split; [do 2 right; rewrite !in_app_iff; simpl; auto|].
    intros a q [<-|[<-|Hin]]; [simpl; congruence|simpl; congruence|].
    revert a q Hin.
    apply writes_app; [by apply writes_none|].
    apply writes_app; [|intros a q [<-|[]]; simpl; congruence].
    apply writes_none.
    destruct e; simpl; repeat constructor.
    destruct (p_grace p); repeat constructor.
Qed.

Lemma configure_writes_only_its_script_witness :
  ∃ new,
    trace (snd (_configure_language Scenario.self "pt-BR"
                  (Scenario.job_of Scenario.hangs_in_configure
                     (Scenario.exits 0 []) Untouched)
                  Scenario.w0)) = trace Scenario.w0 ++ new
    ∧ In (ACreate Scenario.cfg_path) new ∧ In (AUnlink Scenario.cfg_path) new
    ∧ ∀ a q, In a new → written a = Some q → q = Scenario.cfg_path.
Proof.
  refine (configure_writes_only_its_script Scenario.self "pt-BR"
            (Scenario.job_of Scenario.hangs_in_configure
               (Scenario.exits 0 []) Untouched)
            Scenario.w0 Scenario.cfg_path _ _ eq_refl _).
  vm_compute. reflexivity.
Defined.

(** ** The execute phase, case by case *)

Lemma merged_verdict_other_keys d rc ls q k :
  k ≠ "execution_time" → k ≠ "return_code" → k ≠ "slicer_output" →
  Py.dict_get k (merged_verdict d rc ls q) = Py.dict_get k d.
Proof.
  intros H1 H2 H3. unfold merged_verdict. rewrite !dict_get_set.
  destruct (String.eqb_spec k "slicer_output"); [congruence|].
  destruct (String.eqb_spec k "return_code"); [congruence|].
  destruct (String.eqb_spec k "execution_time"); [congruence|].
  reflexivity.
Qed.

(** X6. When the result artifact holds a JSON object, the verdict is that
    object with three entries set by the driver: the elapsed time, the
    child's exit code and the captured lines, which overwrite entries of
    the same name. Every other entry, and the order of the keys, is the
    artifact's. *)
Theorem run_merges_three_fields_into_the_artifact self T pf lc j w path p d :
  j_run_script j = CreateOk path →
  j_run j = Spawned p →
  fs_at_check self lc j w path !! result_file self lc
  = Some (Data (LoadOk (Py.VDict d))) →
  ∃ v rc ls,
    fst (_run_tutorial_test self T pf lc j w) = Ret v
    ∧ (∀ w0, fst (tutorial_loop T (p_start p) p (p_ticks p) [] w0)
             = Ret (rc, ls))
    ∧ Py.get "execution_time" v = Py.VFloat (p_end p - p_start p)
    ∧ Py.get "return_code" v = Py.of_returncode rc
    ∧ Py.get "slicer_output" v = Py.VList (map Py.VStr ls)
    ∧ (∀ k, k ≠ "execution_time" → k ≠ "return_code" → k ≠ "slicer_output" →
            Py.dict_get k v = Py.dict_get k d)
    ∧ Py.dict_keys v
      = add_key (add_key (add_key (Py.dict_keys d) "execution_time")
                   "return_code") "slicer_output".
Proof.
  intros Hc Hp Hf.
  destruct (tutorial_loop_uniform T (p_start p) p (p_ticks p) [])
    as ([rc ls] & new & Hloop & _).
  exists (merged_verdict d rc ls (p_end p - p_start p)), rc, ls.
  rewrite (run_eval self T pf lc j w path p rc ls new Hc Hp Hloop), Hf.
  split; [reflexivity|].
  split; [intros w0; by rewrite Hloop|].
  unfold merged_verdict, Py.get. rewrite !dict_get_set. cbn.
  repeat split.
  - intros k. apply merged_verdict_other_keys.
  - by rewrite !dict_keys_set.
Qed.

Lemma run_merges_three_fields_into_the_artifact_witness :
  ∃ v rc ls,
    fst (_run_tutorial_test Scenario.self 300 "Linux" "pt-BR"
           (Scenario.job_of (Scenario.exits 0 []) (Scenario.exits 7 ["boom"])
              (Leaves (Scenario.success_artifact "pt-BR")))
           Scenario.w0) = Ret v
    ∧ (∀ w0, fst (tutorial_loop 300 0 (Scenario.exits 7 ["boom"])
                    (p_ticks (Scenario.exits 7 ["boom"])) [] w0)
             = Ret (rc, ls))
    ∧ Py.get "execution_time" v = Py.VFloat (2 - 0)
    ∧ Py.get "return_code" v = Py.of_returncode rc
    ∧ Py.get "slicer_output" v = Py.VList (map Py.VStr ls)
    ∧ (∀ k, k ≠ "execution_time" → k ≠ "return_code" → k ≠ "slicer_output" →
            Py.dict_get k v
            = Py.dict_get k [("language", Py.VStr "pt-BR");
                             ("tutorial", Py.VStr "TestTutorial");
                             ("status", Py.VStr "success");
                             ("timestamp", Py.VFloat 1700000000);
                             ("final_language", Py.VStr "pt-BR")])
    ∧ Py.dict_keys v
      = ["language"; "tutorial"; "status"; "timestamp"; "final_language";
         "execution_time"; "return_code"; "slicer_output"].
Proof.
  exact (run_merges_three_fields_into_the_artifact Scenario.self 300 "Linux"
           "pt-BR"
           (Scenario.job_of (Scenario.exits 0 []) (Scenario.exits 7 ["boom"])
              (Leaves (Scenario.success_artifact "pt-BR")))
           Scenario.w0 Scenario.run_path (Scenario.exits 7 ["boom"]) _
           eq_refl eq_refl eq_refl).
Defined.

(** X7. A child read to its end that leaves nothing at the result path:
    the verdict is an error naming the child's exit code, with the
    captured lines and the elapsed time; the driver has not signalled the
    child. *)
Theorem run_without_artifact_reports_the_exit_code self T pf lc j w path p :
  j_run_script j = CreateOk path →
  j_run j = Spawned p →
  Forall (quiet T (p_start p)) (p_ticks p) →
  fs_at_check self lc j w path !! result_file self lc = None →
  fst (_run_tutorial_test self T pf lc j w)
  = Ret (missing_verdict self lc (Some (p_rc p)) (captured (p_ticks p))
           (p_end p - p_start p))
  ∧ trace (snd (_run_tutorial_test self T pf lc j w))
    = trace w ++ [ACreate path; ASpawn (run_cmd self pf path)]
      ++ idle_events (p_ticks p)
      ++ [AExists (result_file self lc) false; AUnlink path].
Proof.
  intros Hc Hp Hall Hf.
  rewrite (run_eval self T pf lc j w path p (Some (p_rc p))
             (captured (p_ticks p)) (idle_events (p_ticks p)) Hc Hp), Hf.
  - split; reflexivity.
  - intros w0. by rewrite tutorial_loop_quiet.
Qed.

Lemma run_without_artifact_reports_the_exit_code_witness :
  fst (_run_tutorial_test Scenario.self 300 "Windows" "es-419"
         (Scenario.job_of (Scenario.exits 0 []) (Scenario.exits 0 ["done"])
            Untouched)
         Scenario.w0)
  = Ret [("language", Py.VStr "es-419");
         ("tutorial", Py.VStr "TestTutorial");
         ("status", Py.VStr "error");
         ("error", Py.VStr "No result file found. Return code: 0");
         ("slicer_output", Py.VList [Py.VStr "done"]);
         ("execution_time", Py.VFloat (2 - 0));
         ("return_code", Py.VInt 0)].
Proof.
  refine (proj1 (run_without_artifact_reports_the_exit_code Scenario.self 300
                   "Windows" "es-419"
                   (Scenario.job_of (Scenario.exits 0 [])
                      (Scenario.exits 0 ["done"]) Untouched)
                   Scenario.w0 Scenario.run_path (Scenario.exits 0 ["done"])
                   eq_refl eq_refl _ eq_refl)).
  repeat (constructor; [split; [reflexivity|discriminate]|]). constructor.
Defined.

(** X8. A result artifact that is valid JSON but no object (a list, a
    number, a string, null, a boolean) makes the first item assignment
    raise: the verdict is an error carrying that message, with
    execution time 0 and neither exit code nor captured lines. *)
Theorem run_rejects_an_artifact_that_is_no_object self T pf lc j w path p v :
  j_run_script j = CreateOk path →
  j_run j = Spawned p →
  fs_at_check self lc j w path !! result_file self lc = Some (Data (LoadOk v)) →
  (∀ d, v ≠ Py.VDict d) →
  fst (_run_tutorial_test self T pf lc j w)
  = Ret (fault_verdict self lc (not_a_dict_message v)).
Proof.
  intros Hc Hp Hf Hv.
  destruct (tutorial_loop_uniform T (p_start p) p (p_ticks p) [])
    as ([rc ls] & new & Hloop & _).
  rewrite (run_eval self T pf lc j w path p rc ls new Hc Hp Hloop), Hf.
  cbn [fst verdict_of_check load_of].
  destruct v; try reflexivity. by destruct (Hv d).
Qed.

Lemma run_rejects_an_artifact_that_is_no_object_witness :
  fst (_run_tutorial_test Scenario.self 300 "Linux" "fr-FR"
         (Scenario.job_of (Scenario.exits 0 []) (Scenario.exits 0 [])
            (Leaves (LoadOk (Py.VList [Py.VStr "success"]))))
         Scenario.w0)
  = Ret [("language", Py.VStr "fr-FR");
         ("tutorial", Py.VStr "TestTutorial");
         ("status", Py.VStr "error");
         ("error", Py.VStr "list indices must be integers or slices, not str");
         ("execution_time", Py.VInt 0)].
Proof.
  refine (run_rejects_an_artifact_that_is_no_object Scenario.self 300 "Linux"
            "fr-FR"
            (Scenario.job_of (Scenario.exits 0 []) (Scenario.exits 0 [])
               (Leaves (LoadOk (Py.VList [Py.VStr "success"]))))
            Scenario.w0 Scenario.run_path (Scenario.exits 0 [])
            (Py.VList [Py.VStr "success"]) eq_refl eq_refl eq_refl _).
  discriminate.
Defined.

(** X9. When the execute child cannot be spawned, the verdict is an error
    carrying the spawn's message with execution time 0, and the result
    path is not even looked at, so an artifact lying there is ignored. *)
Theorem run_reports_a_failed_spawn self T pf lc j w path msg :
  j_run_script j = CreateOk path →
  j_run j = SpawnRaises msg →
  fst (_run_tutorial_test self T pf lc j w) = Ret (fault_verdict self lc msg)
  ∧ trace (snd (_run_tutorial_test self T pf lc j w))
    = trace w ++ [ACreate path; ASpawn (run_cmd self pf path); AUnlink path].
Proof.
  intros Hc Hp. rewrite (run_eval_spawn_fails self T pf lc j w path msg Hc Hp).
  split; reflexivity.
Qed.

Lemma run_reports_a_failed_spawn_witness :
  fst (_run_tutorial_test Scenario.self 300 "Linux" "pt-BR"
         (Job (CreateOk Scenario.cfg_path) (Spawned (Scenario.exits 0 [])) true
              (CreateOk Scenario.run_path) (SpawnRaises "[Errno 8] Exec format error")
              (Leaves (Scenario.success_artifact "pt-BR")) true)
         Scenario.w0)
  = Ret [("language", Py.VStr "pt-BR");
         ("tutorial", Py.VStr "TestTutorial");
         ("status", Py.VStr "error");
         ("error", Py.VStr "[Errno 8] Exec format error");
         ("execution_time", Py.VInt 0)].
Proof.
  exact (proj1 (run_reports_a_failed_spawn Scenario.self 300 "Linux" "pt-BR"
                  (Job (CreateOk Scenario.cfg_path)
                       (Spawned (Scenario.exits 0 [])) true
                       (CreateOk Scenario.run_path)
                       (SpawnRaises "[Errno 8] Exec format error")
                       (Leaves (Scenario.success_artifact "pt-BR")) true)
                  Scenario.w0 Scenario.run_path
                  "[Errno 8] Exec format error" eq_refl eq_refl)).
Defined.

(** X10. The driver never clears the result path before a run. An
    artifact that was already there and that the child does not touch is
    taken for this run's result, status included, and it is still in
    place afterwards. *)
Theorem run_reports_a_stale_artifact self T pf lc j w path p d :
  j_run_script j = CreateOk path →
  j_run j = Spawned p →
  j_artifact j = Untouched →
  path ≠ result_file self lc →
  fs w !! result_file self lc = Some (Data (LoadOk (Py.VDict d))) →
  (∃ rc ls, fst (_run_tutorial_test self T pf lc j w)
            = Ret (merged_verdict d rc ls (p_end p - p_start p))
            ∧ Py.get "status" (merged_verdict d rc ls (p_end p - p_start p))
              = Py.get "status" d)
  ∧ fs (snd (_run_tutorial_test self T pf lc j w)) !! result_file self lc
    = Some (Data (LoadOk (Py.VDict d))).
Proof.
  intros Hc Hp He Hne Hf.
  destruct (tutorial_loop_uniform T (p_start p) p (p_ticks p) [])
    as ([rc ls] & new & Hloop & _).
  assert (Hcheck : fs_at_check self lc j w path !! result_file self lc
                   = Some (Data (LoadOk (Py.VDict d)))).
  { unfold fs_at_check. rewrite He. cbn [apply_effect].
    by rewrite lookup_insert_ne by congruence. }
  rewrite (run_eval self T pf lc j w path p rc ls new Hc Hp Hloop), Hcheck.
  cbn [fst snd fs verdict_of_check load_of]. split.
  - exists rc, ls. split; [reflexivity|]. unfold merged_verdict.
    by rewrite !get_set_ne by reflexivity.
  - unfold after_unlink.
    destruct (fs_at_check self lc j w path !! path);
      [destruct (j_run_unlink j)|]; try exact Hcheck.
    by rewrite lookup_delete_ne by congruence.
Qed.

Lemma run_reports_a_stale_artifact_witness :
  (∃ rc ls,
     fst (_run_tutorial_test Scenario.self 300 "Linux" "pt-BR"
            (Scenario.job_of (Scenario.exits 0 []) (Scenario.exits 1 [])
               Untouched)
            (World (<["/out/result_pt_BR.json"
                      := Data (Scenario.success_artifact "pt-BR")]>
                      (fs Scenario.w0)) []))
     = Ret (merged_verdict
              [("language", Py.VStr "pt-BR");
               ("tutorial", Py.VStr "TestTutorial");
               ("status", Py.VStr "success");
               ("timestamp", Py.VFloat 1700000000);
               ("final_language", Py.VStr "pt-BR")] rc ls (2 - 0))
     ∧ Py.get "status"
         (merged_verdict
            [("language", Py.VStr "pt-BR");
             ("tutorial", Py.VStr "TestTutorial");
             ("status", Py.VStr "success");
             ("timestamp", Py.VFloat 1700000000);
             ("final_language", Py.VStr "pt-BR")] rc ls (2 - 0))
       = Py.VStr "success")
  ∧ fs (snd (_run_tutorial_test Scenario.self 300 "Linux" "pt-BR"
               (Scenario.job_of (Scenario.exits 0 []) (Scenario.exits 1 [])
                  Untouched)
               (World (<["/out/result_pt_BR.json"
                         := Data (Scenario.success_artifact "pt-BR")]>
                         (fs Scenario.w0)) [])))
    !! "/out/result_pt_BR.json"
    = Some (Data (Scenario.success_artifact "pt-BR")).
Proof.
  refine (run_reports_a_stale_artifact Scenario.self 300 "Linux" "pt-BR"
            (Scenario.job_of (Scenario.exits 0 []) (Scenario.exits 1 [])
               Untouched)
            (World (<["/out/result_pt_BR.json"
                      := Data (Scenario.success_artifact "pt-BR")]>
                      (fs Scenario.w0)) [])
            Scenario.run_path (Scenario.exits 1 []) _
            eq_refl eq_refl eq_refl _ _).
  - discriminate.
  - vm_compute. reflexivity.
Defined.

(** X11. Whatever the child does, the driver's own file operations in the
    execute phase are on its transient script alone: it creates and
    unlinks that path, only reads the result path, and creates, rewrites
    or removes no other; in particular it never removes the artifact. *)
Theorem run_writes_only_its_script self T pf lc j w path r w' :
  j_run_script j = CreateOk path →
  _run_tutorial_test self T pf lc j w = (r, w') →
  ∃ new, trace w' = trace w ++ new
         ∧ In (ACreate path) new ∧ In (AUnlink path) new
         ∧ ∀ a q, In a new → written a = Some q → q = path.
Proof.
  intros Hc. destruct (j_run j) as [msg|p] eqn:Hp.
  - rewrite (run_eval_spawn_fails self T pf lc j w path msg Hc Hp).
    intros [= <- <-]. eexists. split; [reflexivity|].
    split; [simpl; auto|]. split; [simpl; auto|].
    intros a q [<-|[<-|[<-|[]]]]; simpl; congruence.
  - destruct (tutorial_loop_uniform T (p_start p) p (p_ticks p) [])
      as ([rc ls] & new & Hloop & _ & Hw).
    rewrite (run_eval self T pf lc j w path p rc ls new Hc Hp Hloop).
    intros [= <- <-]. eexists. split; [reflexivity|].
    split; [simpl; auto|].
    split; [do 2 right; rewrite !in_app_iff; simpl; auto|].
    intros a q [<-|[<-|Hin]]; [simpl; congruence|simpl; congruence|].
    revert a q Hin.
    apply writes_app; [by apply writes_none|].
    apply writes_app; [|intros a q [<-|[]]; simpl; congruence].
    apply writes_none.
    destruct (fs_at_check self lc j w path !! result_file self lc);
      simpl; repeat constructor.
Qed.

Lemma run_writes_only_its_script_witness :
  ∃ new,
    trace (snd (_run_tutorial_test Scenario.self 300 "Linux" "pt-BR"
                  (Scenario.job_of (Scenario.exits 0 []) Scenario.hangs
                     (Leaves (Scenario.success_artifact "pt-BR")))
                  Scenario.w0)) = trace Scenario.w0 ++ new
    ∧ In (ACreate Scenario.run_path) new ∧ In (AUnlink Scenario.run_path) new
    ∧ ∀ a q, In a new → written a = Some q → q = Scenario.run_path.
Proof.
  refine (run_writes_only_its_script Scenario.self 300 "Linux" "pt-BR"
            (Scenario.job_of (Scenario.exits 0 []) Scenario.hangs
               (Leaves (Scenario.success_artifact "pt-BR")))
            Scenario.w0 Scenario.run_path _ _ eq_refl _).
  vm_compute. reflexivity.
Defined.

(** X12. A child still running when the clock passes the budget is sent
    terminate, waited for up to five seconds and, if still alive, killed
    and waited for. After that the run is judged like any other: by what
    is at the result path, so an artifact written before the budget ran
    out still decides the verdict. *)
Theorem run_after_the_budget_is_judged_by_the_artifact
    self T pf lc j w path p pre t post :
  j_run_script j = CreateOk path →
  j_run j = Spawned p →
  p_ticks p = pre ++ t :: post →
  Forall (quiet T (p_start p)) pre →
  overrun T (p_start p) t →
  fst (_run_tutorial_test self T pf lc j w)
  = Ret (verdict_of_check self lc
           (fs_at_check self lc j w path !! result_file self lc)
           (Some (snd (escalation (p_grace p)))) (captured pre)
           (p_end p - p_start p))
  ∧ trace (snd (_run_tutorial_test self T pf lc j w))
    = trace w ++ [ACreate path; ASpawn (run_cmd self pf path)]
      ++ idle_events pre ++ fst (escalation (p_grace p))
      ++ check_events (result_file self lc)
           (fs_at_check self lc j w path !! result_file self lc)
      ++ [AUnlink path].
Proof.
  intros Hc Hp Hticks Hall Ht.
  rewrite (run_eval self T pf lc j w path p
             (Some (snd (escalation (p_grace p)))) (captured pre)
             (idle_events pre ++ fst (escalation (p_grace p))) Hc Hp).
  - split; [reflexivity|]. cbn [snd trace]. by rewrite <- !app_assoc.
  - intros w0. rewrite Hticks. by rewrite tutorial_loop_overrun.
Qed.

Lemma run_after_the_budget_is_judged_by_the_artifact_witness :
  Py.get "status"
    (verdict_of_check Scenario.self "pt-BR"
       (Some (Data (Scenario.success_artifact "pt-BR")))
       (Some (-9)) [] (306 - 0)) = Py.VStr "success"
  ∧ fst (_run_tutorial_test Scenario.self 300 "Linux" "pt-BR"
           (Scenario.job_of (Scenario.exits 0 []) Scenario.hangs
              (Leaves (Scenario.success_artifact "pt-BR")))
           Scenario.w0)
    = Ret (verdict_of_check Scenario.self "pt-BR"
             (Some (Data (Scenario.success_artifact "pt-BR")))
             (Some (-9)) [] (306 - 0)).
Proof.
  split; [reflexivity|].
  refine (proj1 (run_after_the_budget_is_judged_by_the_artifact Scenario.self
                   300 "Linux" "pt-BR"
                   (Scenario.job_of (Scenario.exits 0 []) Scenario.hangs
                      (Leaves (Scenario.success_artifact "pt-BR")))
                   Scenario.w0 Scenario.run_path Scenario.hangs
                   [Tick 1 (ReadOk "")] (Tick 301 (ReadOk "")) []
                   eq_refl eq_refl eq_refl _ _)).
  - repeat (constructor; [split; [reflexivity|discriminate]|]). constructor.
  - reflexivity.
Defined.

(** X13. When [readline] raises in the execute phase the loop just stops:
    the child is neither waited for nor signalled, so its exit code is
    still [None] when the verdict is made, and the result path is checked
    while the child may still be running. *)
Theorem run_after_a_read_fault_has_no_exit_code
    self T pf lc j w path p pre t post :
  j_run_script j = CreateOk path →
  j_run j = Spawned p →
  p_ticks p = pre ++ t :: post →
  Forall (quiet T (p_start p)) pre →
  Qgt_bool (now t - p_start p) (inject_Z T) = false →
  rd t = ReadRaises →
  fst (_run_tutorial_test self T pf lc j w)
  = Ret (verdict_of_check self lc
           (fs_at_check self lc j w path !! result_file self lc)
           None (captured pre) (p_end p - p_start p))
  ∧ trace (snd (_run_tutorial_test self T pf lc j w))
    = trace w ++ [ACreate path; ASpawn (run_cmd self pf path)]
      ++ idle_events pre
      ++ check_events (result_file self lc)
           (fs_at_check self lc j w path !! result_file self lc)
      ++ [AUnlink path].
Proof.
  intros Hc Hp Hticks Hall Ht Hrd.
  rewrite (run_eval self T pf lc j w path p None (captured pre)
             (idle_events pre) Hc Hp).
  - split; reflexivity.
  - intros w0. rewrite Hticks. by rewrite tutorial_loop_broken.
Qed.

Lemma run_after_a_read_fault_has_no_exit_code_witness :
  fst (_run_tutorial_test Scenario.self 300 "Linux" "fr-FR"
         (Scenario.job_of (Scenario.exits 0 [])
            (Proc 0 [Tick 1 (ReadOk "loading
"); Tick 2 ReadRaises] 0
               (ExitsInTime 0) 3)
            Untouched)
         Scenario.w0)
  = Ret [("language", Py.VStr "fr-FR");
         ("tutorial", Py.VStr "TestTutorial");
         ("status", Py.VStr "error");
         ("error", Py.VStr "No result file found. Return code: None");
         ("slicer_output", Py.VList [Py.VStr "loading"]);
         ("execution_time", Py.VFloat (3 - 0));
         ("return_code", Py.VNone)].
Proof.
  refine (proj1 (run_after_a_read_fault_has_no_exit_code Scenario.self 300
                   "Linux" "fr-FR"
                   (Scenario.job_of (Scenario.exits 0 [])
                      (Proc 0 [Tick 1 (ReadOk "loading
"); Tick 2 ReadRaises] 0
                         (ExitsInTime 0) 3)
                      Untouched)
                   Scenario.w0 Scenario.run_path _
                   [Tick 1 (ReadOk "loading
")] (Tick 2 ReadRaises) []
                   eq_refl eq_refl eq_refl _ eq_refl eq_refl)).
  repeat (constructor; [split; [reflexivity|discriminate]|]). constructor.
Defined.

(** ** One locale: how many children *)

Lemma configure_spawns self lc j w :
  ∃ r F new,
    _configure_language self lc j w = (r, World F (trace w ++ new))
    ∧ ((∃ b, r = Ret b) ∨ (∃ msg, r = Raise (Exception msg)))
    ∧ (spawns new <= 1)%nat
    ∧ (r = Ret true → spawns new = 1%nat).
Proof.
  destruct (j_cfg_script j) as [path|msg lb] eqn:Hc.
  - destruct (j_cfg j) as [msg|p] eqn:Hp.
    + rewrite (configure_eval_spawn_fails self lc j w path msg Hc Hp).
      eexists _, _, _. split; [reflexivity|]. split; [left; eauto|].
      split; [simpl; lia|discriminate].
    + destruct (configure_loop_uniform (p_start p) p (p_ticks p) [])
        as (e & new & Hloop & Hs & _).
      rewrite (configure_eval self lc j w path p e new Hc Hp Hloop).
      eexists _, _, _. split; [reflexivity|]. split; [left; eauto|].
      assert (Hw : spawns (cfg_wait p e) = 0%nat)
        by (destruct e; simpl; try reflexivity; by destruct (p_grace p)).
      rewrite !spawns_app, Hs, Hw. simpl. split; [lia|reflexivity].
  - unfold _configure_language. rewrite Hc.
    destruct lb; unfold create_script; munfold; cbn [fs trace].
    + eexists _, _, [_]. split; [reflexivity|]. split; [right; eauto|].
      split; [simpl; lia|discriminate].
    + exists (Raise (Exception msg)), (fs w), [].
      split; [rewrite app_nil_r; by destruct w|]. split; [right; eauto|].
      split; [simpl; lia|discriminate].
Qed.

Lemma run_spawns self T pf lc j w :
  ∃ r F new,
    _run_tutorial_test self T pf lc j w = (r, World F (trace w ++ new))
    ∧ ((∃ v, r = Ret v) ∨ (∃ msg, r = Raise (Exception msg)))
    ∧ (spawns new <= 1)%nat
    ∧ (∀ v, r = Ret v → Py.get "status" v = Py.VStr "success" →
            spawns new = 1%nat).
Proof.
  destruct (j_run_script j) as [path|msg lb] eqn:Hc.
  - destruct (j_run j) as [msg|p] eqn:Hp.
    + rewrite (run_eval_spawn_fails self T pf lc j w path msg Hc Hp).
      eexists _, _, _. split; [reflexivity|]. split; [left; eauto|].
      split; [simpl; lia|]. intros; reflexivity.
    + destruct (tutorial_loop_uniform T (p_start p) p (p_ticks p) [])
        as ([rc ls] & new & Hloop & Hs & _).
      rewrite (run_eval self T pf lc j w path p rc ls new Hc Hp Hloop).
      eexists _, _, _. split; [reflexivity|]. split; [left; eauto|].
      assert (Hw : ∀ q o, spawns (check_events q o) = 0%nat)
        by (intros q [f|]; reflexivity).
      rewrite !spawns_app, Hs, Hw. simpl. split; [lia|reflexivity].
  - unfold _run_tutorial_test. rewrite Hc.
    destruct lb; unfold create_script; munfold; cbn [fs trace].
    + eexists _, _, [_]. split; [reflexivity|]. split; [right; eauto|].
      split; [simpl; lia|discriminate].
    + exists (Raise (Exception msg)), (fs w), [].
      split; [rewrite app_nil_r; by destruct w|]. split; [right; eauto|].
      split; [simpl; lia|discriminate].
Qed.

Lemma locale_spawns self T pf lc j w :
  ∃ v F new,
    run_test_for_language self T pf lc j w = (Ret v, World F (trace w ++ new))
    ∧ (spawns new <= 2)%nat
    ∧ (Py.get "status" v = Py.VStr "success" → spawns new = 2%nat).
Proof.
  unfold run_test_for_language. munfold.
  destruct (configure_spawns self lc j w)
    as (r & F & new & -> & Hr & Hle & Hone).
  destruct Hr as [[b ->]|[msg ->]]; [destruct b; cbn [negb]|].
  - destruct (run_spawns self T pf lc j (World F (trace w ++ new)))
      as (r & F' & new' & -> & Hr & Hle' & Hone').
    cbn [trace]. rewrite <- app_assoc.
    destruct Hr as [[v ->]|[msg ->]].
    + eexists _, _, _. split; [reflexivity|]. rewrite spawns_app.
      split; [lia|]. intros Hst.
      rewrite (Hone eq_refl), (Hone' v eq_refl Hst). reflexivity.
    + eexists _, _, _. split; [reflexivity|]. rewrite spawns_app.
      split; [lia|]. discriminate.
  - eexists _, _, _. split; [reflexivity|]. split; [lia|discriminate].
  - eexists _, _, _. split; [reflexivity|]. split; [lia|discriminate].
Qed.

(** X14. When one locale's test returns, it has spawned at most two
    children; a verdict with status success is only ever returned after
    exactly two, the configure child and the execute child. *)
Theorem locale_test_spawns_at_most_two_children self T pf lc j w r w' :
  run_test_for_language self T pf lc j w = (r, w') →
  ∃ new,
    trace w' = trace w ++ new
    ∧ (spawns new <= 2)%nat
    ∧ (∀ v, r = Ret v → Py.get "status" v = Py.VStr "success" →
            spawns new = 2%nat).
Proof.
  destruct (locale_spawns self T pf lc j w) as (v & F & new & -> & Hle & H2).
  intros [= <- <-]. exists new. split; [reflexivity|]. split; [exact Hle|].
  intros ? [= <-]. exact H2.
Qed.

Lemma locale_test_spawns_at_most_two_children_witness :
  ∃ new,
    trace (snd (run_test_for_language Scenario.self 300 "Linux" "pt-BR"
                  (Scenario.all_good ["pt-BR"] 0) Scenario.w0))
    = trace Scenario.w0 ++ new
    ∧ (spawns new <= 2)%nat
    ∧ (∀ v, fst (run_test_for_language Scenario.self 300 "Linux" "pt-BR"
                   (Scenario.all_good ["pt-BR"] 0) Scenario.w0) = Ret v →
            Py.get "status" v = Py.VStr "success" → spawns new = 2%nat).
Proof.
  refine (locale_test_spawns_at_most_two_children Scenario.self 300 "Linux"
            "pt-BR" (Scenario.all_good ["pt-BR"] 0) Scenario.w0 _ _ _).
  vm_compute. reflexivity.
Defined.

(** ** The batch *)

Lemma run_each_numeric self T pf jobs L i w vs w' :
  run_each self T pf jobs i L w = (vs, w') →
  Forall (fun v => numeric_time v = true) vs.
Proof.
  revert i w vs w'. induction L as [|lang L IH]; intros i w vs w'; simpl.
  - intros [= <- _]. constructor.
  - destruct (run_test_for_language_total self T pf lang (jobs i) w)
      as (v & w1 & -> & Hnum).
    destruct (run_each self T pf jobs (S i) L w1) as [vs1 w1'] eqn:E.
    intros [= <- _]. constructor; [exact Hnum|]. eapply IH, E.
Qed.

Lemma dict_set_Forall {V} (P : V → Prop) k v (d : Py.dict V) :
  P v → Forall P (Py.dict_values d) → Forall P (Py.dict_values (Py.dict_set k v d)).
Proof.
  intros Hv. unfold Py.dict_values.
  induction d as [|[k0 v0] d IH]; simpl; intros Hd.
  - by constructor.
  - inversion Hd as [|? ? H0 Hrest]; subst.
    destruct (String.eqb k k0); simpl; constructor; auto.
Qed.

Lemma fold_store_Forall (P : verdict → Prop) L vs results :
  Forall P vs → Forall P (Py.dict_values results) →
  Forall P (Py.dict_values (fold_left store (combine L vs) results)).
Proof.
  revert vs results. induction L as [|k L IH]; intros vs results Hvs Hr.
  - exact Hr.
  - destruct vs as [|v vs]; [exact Hr|]. simpl.
    inversion Hvs; subst. apply IH; [assumption|].
    unfold store. simpl. by apply dict_set_Forall.
Qed.

Lemma batch_numeric self T pf L jobs w results w1 :
  run_all_tests self T pf L jobs w = (Ret results, w1) →
  Forall (fun v => numeric_time v = true) (Py.dict_values results).
Proof.
  unfold run_all_tests.
  set (L' := match L with None => DEFAULT_LANGUAGES | Some l => l end).
  destruct (run_all_loop_spec self T pf jobs L' 0%nat [] w)
    as (vs & w' & Heach & _ & ->).
  intros [= <- _]. apply fold_store_Forall; [|constructor].
  eapply run_each_numeric, Heach.
Qed.

Lemma printable_split results :
  Forall (fun v => numeric_time v = true) (Py.dict_values results) →
  forallb printable (Py.dict_values results)
  = forallb string_status (Py.dict_values results).
Proof.
  unfold Py.dict_values. induction results as [|[k r] rest IH]; simpl.
  - reflexivity.
  - intros H. inversion H as [|? ? Hr Hrest]; subst. rewrite IH by assumption.
    f_equal. unfold printable, string_status, numeric_time in *.
    destruct (get_default "status" _ r); try reflexivity.
    by destruct (get_default "execution_time" _ r).
Qed.


(** X17. Every verdict a batch stores has a numeric execution time, so
    the only thing that can make the report of a batch fail after it is
    written is a status that is no string (taken over from an artifact):
    then [generate_report] raises, otherwise it returns the report. *)
Theorem batch_report_fails_only_on_a_status_that_is_no_string
    self T pf L jobs w results w1 clock :
  run_all_tests self T pf L jobs w = (Ret results, w1) →
  Forall (fun v => numeric_time v = true) (Py.dict_values results)
  ∧ ∃ r out,
      fst (generate_report self results clock None w1) = out
      ∧ fs (snd (generate_report self results clock None w1))
          !! report_file self = Some (Data (LoadOk (report_value r)))
      ∧ r_results r = results
      ∧ if forallb string_status (Py.dict_values results)
        then out = Ret r
        else ∃ msg, out = Raise (Exception msg).
Proof.
  intros Hrun. assert (Hnum := batch_numeric _ _ _ _ _ _ _ _ Hrun).
  split; [exact Hnum|].
  destruct (generate_report_ok self results clock w1)
    as (r & out & -> & Hout & Hres & _).
  exists r, out. cbn [fst snd fs]. split; [reflexivity|].
  split; [apply lookup_insert_eq|]. split; [exact Hres|].
  by rewrite <- printable_split.
Qed.

Lemma batch_report_fails_only_on_a_status_that_is_no_string_witness :
  ∃ msg,
    fst (generate_report Scenario.self
           [("pt-BR",
             merged_verdict [("status", Py.VInt 1)] (Some 0) [] (2 - 0))]
           1700000100 None
           (snd (run_all_tests Scenario.self 300 "Linux" (Some ["pt-BR"])
                   (fun _ => Scenario.job_of (Scenario.exits 0 [])
                               (Scenario.exits 0 [])
                               (Leaves (LoadOk (Py.VDict [("status", Py.VInt 1)]))))
                   Scenario.w0)))
    = Raise (Exception msg).
Proof.
  destruct (batch_report_fails_only_on_a_status_that_is_no_string
              Scenario.self 300 "Linux" (Some ["pt-BR"])
              (fun _ => Scenario.job_of (Scenario.exits 0 [])
                          (Scenario.exits 0 [])
                          (Leaves (LoadOk (Py.VDict [("status", Py.VInt 1)]))))
              Scenario.w0
              [("pt-BR",
                merged_verdict [("status", Py.VInt 1)] (Some 0) [] (2 - 0))]
              (snd (run_all_tests Scenario.self 300 "Linux" (Some ["pt-BR"])
                      (fun _ => Scenario.job_of (Scenario.exits 0 [])
                                  (Scenario.exits 0 [])
                                  (Leaves (LoadOk (Py.VDict [("status", Py.VInt 1)]))))
                      Scenario.w0))
              1700000100)
    as (_ & r & out & Hout & _ & _ & Hcase).
  - vm_compute. reflexivity.
  - rewrite Hout. exact Hcase.
Defined.

(** X18. [generate_report] changes one path at most, the report's; every
    other path holds what it held before, however the write goes. When
    [open] fails the filesystem is unchanged; when the dump fails after
    the file was opened, the report path holds a file that is no JSON
    document. In both cases the error is raised. *)
Theorem generate_report_touches_only_the_report
    self results clock write_fault w :
  (∀ q, q ≠ report_file self →
        fs (snd (generate_report self results clock write_fault w)) !! q
        = fs w !! q)
  ∧ (∀ msg, write_fault = Some (OpenRaises msg) →
            generate_report self results clock write_fault w
            = (Raise (Exception msg),
               World (fs w) (trace w ++ [AWriteReport (report_file self)])))
  ∧ (∀ msg, write_fault = Some (DumpRaises msg) →
            fst (generate_report self results clock write_fault w)
            = Raise (Exception msg)
            ∧ fs (snd (generate_report self results clock write_fault w))
                !! report_file self
              = Some (Data (LoadRaises "JSONDecodeError"))).
Proof.
  split; [|split].
  - intros q Hq. destruct write_fault as [wf|].
    + rewrite generate_report_fault. cbn [snd fs].
      destruct wf; [reflexivity|]. by rewrite lookup_insert_ne by congruence.
    + destruct (generate_report_ok self results clock w)
        as (r & out & -> & _).
      cbn [snd fs]. by rewrite lookup_insert_ne by congruence.
  - intros msg ->. apply generate_report_fault.
  - intros msg ->. rewrite generate_report_fault. cbn [fst snd fs].
    split; [reflexivity|apply lookup_insert_eq].
Qed.

(** ** The exit code, from the counts *)

Lemma half_rate (s : Z) (p : positive) :
  Qle_bool 50 (inject_Z s / inject_Z (Z.pos p) * 100) = Z.leb (Z.pos p) (2 * s).
Proof.
  apply Bool.eq_iff_eq_true. rewrite Qle_bool_iff, Z.leb_le.
  unfold Qle, Qdiv, Qmult, Qinv, inject_Z. cbn [Qnum Qden].
  rewrite ?Pos2Z.inj_mul. lia.
Qed.

Lemma full_rate (s : Z) (p : positive) :
  Qeq_bool (inject_Z s / inject_Z (Z.pos p) * 100) 100 = Z.eqb s (Z.pos p).
Proof.
  apply Bool.eq_iff_eq_true. rewrite Qeq_bool_iff, Z.eqb_eq.
  unfold Qeq, Qdiv, Qmult, Qinv, inject_Z. cbn [Qnum Qden].
  rewrite ?Pos2Z.inj_mul. lia.
Qed.

Lemma rational_exit_by_counts (s n : Z) :
  0 <= n → rational_exit s n = exit_by_counts s n.
Proof.
  intros Hn. unfold rational_exit, exit_by_counts.
  destruct n as [|p|p]; [reflexivity| |lia].
  change (Z.ltb 0 (Z.pos p)) with true. cbn [Z.eqb].
  rewrite full_rate, half_rate. reflexivity.
Qed.

(** X19. The exit code of a batch of up to 200 verdicts whose report is
    written and printed, in whole numbers: with N verdicts of which S
    have status success it is 2 for the empty batch, 0 when S = N, 1 when
    at least half succeeded (N <= 2S) and 2 otherwise. *)
Theorem main_exit_code_by_counts a b w self results w1 :
  is_Some (fs w !! slicer_path a) →
  __init__ (slicer_path a) (tutorial a) (output a) b w = (Ret self, w) →
  run_all_tests self (timeout a) (b_platform b) (Some (languages a))
    (b_jobs b) w = (Ret results, w1) →
  b_report_write b = None →
  forallb string_status (Py.dict_values results) = true →
  (length results <= 200)%nat →
  exit_status (fst (main a b w))
  = exit_by_counts (Z.of_nat (successes results))
      (Z.of_nat (length results)).
Proof.
  intros Hexe Hinit Hrun Hwrite Hstr Hlen.
  assert (Hnum := batch_numeric _ _ _ _ _ _ _ _ Hrun).
  pose proof (main_in_the_try_block a b w self results w1 Hexe Hinit Hrun)
    as H.
  rewrite Hwrite, (printable_split results Hnum), Hstr in H. rewrite H.
  destruct (reported_rate_decisions results Hlen) as (H100 & H50 & _).
  assert (Hle := successes_le results).
  assert (Hnil : results ≠ [] ↔ length results ≠ 0%nat)
    by (destruct results; simpl; split; congruence).
  rewrite Hnil in H100, H50. unfold exit_by_counts.
  destruct (num_eqb (reported_rate results) 100);
    destruct (num_geb (reported_rate results) 50);
    destruct (Z.eqb_spec (Z.of_nat (length results)) 0);
    destruct (Z.eqb_spec (Z.of_nat (successes results))
                         (Z.of_nat (length results)));
    destruct (Z.leb_spec (Z.of_nat (length results))
                         (2 * Z.of_nat (successes results)));
    try reflexivity; exfalso;
    repeat match goal with
           | H : true = true ↔ _ |- _ => destruct (proj1 H eq_refl); clear H
           | H : false = true ↔ ?P |- _ =>
               assert (¬ P) by (intros HP; apply H in HP; discriminate);
               clear H
           end;
    try lia;
    repeat match goal with
           | H : ¬ (_ ∧ _) |- _ => apply H; split; lia
           end.
Qed.

Lemma main_exit_code_by_counts_witness :
  exit_status
    (fst (main (Scenario.args_of ["pt-BR"; "fr-FR"])
            (Scenario.batch_of
               (fun i => Scenario.job_of (Scenario.exits 0 [])
                           (Scenario.exits 0 [])
                           (match i with
                            | O => Leaves (Scenario.success_artifact "pt-BR")
                            | _ => Untouched
                            end)) None)
            Scenario.w0)) = 1.
Proof.
  set (a := Scenario.args_of ["pt-BR"; "fr-FR"]).
  set (b := Scenario.batch_of
              (fun i => Scenario.job_of (Scenario.exits 0 [])
                          (Scenario.exits 0 [])
                          (match i with
                           | O => Leaves (Scenario.success_artifact "pt-BR")
                           | _ => Untouched
                           end)) None).
  refine (main_exit_code_by_counts a b Scenario.w0 Scenario.self
            (match fst (run_all_tests Scenario.self 300 "Linux"
                          (Some ["pt-BR"; "fr-FR"]) (b_jobs b) Scenario.w0) with
             | Ret r => r
             | Raise _ => []
             end)
            (snd (run_all_tests Scenario.self 300 "Linux"
                    (Some ["pt-BR"; "fr-FR"]) (b_jobs b) Scenario.w0))
            _ eq_refl _ eq_refl _ _).
  - vm_compute. eexists. reflexivity.
  - vm_compute. reflexivity.
  - vm_compute. reflexivity.
  - vm_compute. lia.
Defined.

(** X20. Before the batch: with the executable missing, or with the
    output directory impossible to create, [main] ends with exit status
    1 and the world as it was: no script, no child, no report. *)
Theorem main_stops_before_the_batch a b w :
  fs w !! slicer_path a = None ∨ (∃ msg, b_mkdir b = Some msg) →
  snd (main a b w) = w ∧ exit_status (fst (main a b w)) = 1.
Proof.
  intros H. destruct (main_before_the_batch a b w) as [Hmissing Hmkdir].
  destruct (fs w !! slicer_path a) as [f|] eqn:Hexe.
  - destruct H as [H|[msg Hmk]]; [discriminate|].
    destruct (Hmkdir msg (ex_intro _ f eq_refl) Hmk) as [-> _]. by split.
  - rewrite (Hmissing eq_refl). by split.
Qed.

Lemma main_stops_before_the_batch_witness :
  snd (main (Scenario.args_of ["pt-BR"])
         (Batch "/work" (Some "[Errno 2] No such file or directory: '/out'")
            "Linux" (Scenario.all_good ["pt-BR"]) 1700000100 None)
         Scenario.w0) = Scenario.w0
  ∧ exit_status
      (fst (main (Scenario.args_of ["pt-BR"])
              (Batch "/work" (Some "[Errno 2] No such file or directory: '/out'")
                 "Linux" (Scenario.all_good ["pt-BR"]) 1700000100 None)
              Scenario.w0)) = 1.
Proof.
  apply (main_stops_before_the_batch (Scenario.args_of ["pt-BR"])
           (Batch "/work" (Some "[Errno 2] No such file or directory: '/out'")
              "Linux" (Scenario.all_good ["pt-BR"]) 1700000100 None)
           Scenario.w0).
  right. eexists. reflexivity.
Defined.

Lemma exits_agree_upto_spec (m : nat) :
  exits_agree_upto m = true →
  ∀ s n, 0 <= s <= n → n <= Z.of_nat m →
         Z.eqb (float_exit s n) (rational_exit s n) = true.
Proof.
  intros H s n Hs Hn.
  unfold exits_agree_upto in H. rewrite forallb_forall in H.
  assert (Hin : ∀ k j, 0 <= k <= Z.of_nat j → In k (upto j)).
  { intros k j Hk. unfold upto. apply in_map_iff. exists (Z.to_nat k).
    split; [lia|]. apply in_seq. lia. }
  specialize (H n (Hin n m ltac:(lia))).
  rewrite forallb_forall in H. apply H. apply Hin. lia.
Qed.

(** Past the 53 bits of a double the computed decision and the
    whole-number rule part ways: one failure in 2^60 verdicts rounds to a
    rate of 100. *)
Example counts_rule_needs_small_counts :
  float_exit (2 ^ 60 - 1) (2 ^ 60) = 0
  ∧ exit_by_counts (2 ^ 60 - 1) (2 ^ 60) = 1.
Proof. split; vm_compute; reflexivity. Qed.

(** X21. The exit decision does not depend on reading the rate as a
    rational: computed in IEEE doubles as the driver does, S of N
    successes give the same exit code as the whole-number rule, for every
    batch of up to 200 locales. *)
Theorem exit_code_in_doubles s n :
  0 <= s <= n → n <= 200 →
  float_exit s n = exit_by_counts s n.
Proof.
  intros Hs Hn. rewrite <- rational_exit_by_counts by lia.
  apply Z.eqb_eq.
  apply (exits_agree_upto_spec 200 rational_rate_decides_like_doubles);
    [exact Hs|].
  change (Z.of_nat 200) with 200. exact Hn.
Qed.

Lemma exit_code_in_doubles_witness : float_exit 1 3 = 2.
Proof.
  apply (exit_code_in_doubles 1 3); lia.
Defined.

(** ** Faults while a script is created *)

(** X22. The scripts are created outside the [try] blocks of the two
    phases. When creating the configure script faults, or configure
    succeeds and creating the execute script faults, the locale's verdict
    has status exception and carries the fault's message; a script file
    that came into existence before the fault is left behind, since no
    [finally] block knows its path. *)
Theorem script_creation_fault_gives_an_exception_verdict
    self T pf lc j w msg left_behind :
  j_cfg_script j = CreateRaises msg left_behind
  ∨ (fst (_configure_language self lc j w) = Ret true
     ∧ j_run_script j = CreateRaises msg left_behind) →
  fst (run_test_for_language self T pf lc j w)
  = Ret [("language", Py.VStr lc);
         ("tutorial", Py.VStr (tutorial_name self));
         ("status", Py.VStr "exception");
         ("error", Py.VStr msg);
         ("execution_time", Py.VInt 0)]
  ∧ (∀ path, left_behind = Some path →
       fs (snd (run_test_for_language self T pf lc j w)) !! path
       = Some Script).
Proof.
  intros [Hc|[Hcfg Hc]]; unfold run_test_for_language; munfold.
  - unfold _configure_language. rewrite Hc.
    destruct left_behind as [p|]; unfold create_script; munfold;
      cbn [fst snd fs trace]; (split; [reflexivity|]).
    + intros ? [= <-]. apply lookup_insert_eq.
    + discriminate.
  - destruct (_configure_language self lc j w) as [r w1]. cbn [fst] in Hcfg.
    subst r. cbn [negb]. unfold _run_tutorial_test. rewrite Hc.
    destruct left_behind as [p|]; unfold create_script; munfold;
      cbn [fst snd fs trace]; (split; [reflexivity|]).
    + intros ? [= <-]. apply lookup_insert_eq.
    + discriminate.
Qed.

Lemma script_creation_fault_gives_an_exception_verdict_witness :
  fst (run_test_for_language Scenario.self 300 "Linux" "pt-BR"
         (Job (CreateRaises "[Errno 28] No space left on device"
                 (Some Scenario.cfg_path))
              (Spawned (Scenario.exits 0 [])) true
              (CreateOk Scenario.run_path) (Spawned (Scenario.exits 0 []))
              Untouched true)
         Scenario.w0)
  = Ret [("language", Py.VStr "pt-BR");
         ("tutorial", Py.VStr "TestTutorial");
         ("status", Py.VStr "exception");
         ("error", Py.VStr "[Errno 28] No space left on device");
         ("execution_time", Py.VInt 0)]
  ∧ (∀ path, Some Scenario.cfg_path = Some path →
       fs (snd (run_test_for_language Scenario.self 300 "Linux" "pt-BR"
                  (Job (CreateRaises "[Errno 28] No space left on device"
                          (Some Scenario.cfg_path))
                       (Spawned (Scenario.exits 0 [])) true
                       (CreateOk Scenario.run_path)
                       (Spawned (Scenario.exits 0 [])) Untouched true)
                  Scenario.w0)) !! path
       = Some Script).
Proof.
  apply (script_creation_fault_gives_an_exception_verdict Scenario.self 300
           "Linux" "pt-BR"
           (Job (CreateRaises "[Errno 28] No space left on device"
                   (Some Scenario.cfg_path))
                (Spawned (Scenario.exits 0 [])) true
                (CreateOk Scenario.run_path) (Spawned (Scenario.exits 0 []))
                Untouched true)
           Scenario.w0 "[Errno 28] No space left on device"
           (Some Scenario.cfg_path)).
  left. reflexivity.
Defined.

(** ** The batch: how many children *)

Lemma successes_set k (v : verdict) (d : Py.dict verdict) :
  (successes (Py.dict_set k v d)
   <= successes d
      + (if Py.eq_str (Py.get "status" v) "success" then 1 else 0))%nat.
Proof.
  induction d as [|[k0 v0] d IH]; simpl.
  - lia.
  - destruct (String.eqb k k0); simpl; lia.
Qed.

Lemma successes_fold L vs (d : Py.dict verdict) :
  (successes (fold_left store (combine L vs) d)
   <= successes d + successes (combine L vs))%nat.
Proof.
  revert vs d. induction L as [|k L IH]; intros vs d; simpl; [lia|].
  destruct vs as [|v vs]; simpl; [lia|].
  etransitivity; [apply IH|]. unfold store. cbn [fst snd].
  pose proof (successes_set k v d). lia.
Qed.

Lemma run_each_spawns self T pf jobs L i w :
  ∃ vs F new,
    run_each self T pf jobs i L w = (vs, World F (trace w ++ new))
    ∧ (2 * successes (combine L vs) <= spawns new)%nat
    ∧ (spawns new <= 2 * length L)%nat.
Proof.
  revert i w. induction L as [|lang L IH]; intros i w; simpl.
  - exists [], (fs w), []. rewrite app_nil_r. split; [by destruct w|].
    simpl. lia.
  - destruct (locale_spawns self T pf lang (jobs i) w)
      as (v & F & new & -> & Hle & Hsucc).
    destruct (IH (S i) (World F (trace w ++ new)))
      as (vs & F' & new' & -> & Hlo & Hhi).
    cbn [trace]. rewrite <- app_assoc.
    eexists _, _, _. split; [reflexivity|]. rewrite spawns_app. simpl.
    destruct (Py.get "status" v) as [| | | |s| |] eqn:Hst; simpl;
      try lia.
    destruct (String.eqb_spec s "success") as [->|_]; [|lia].
    rewrite (Hsucc eq_refl). lia.
Qed.

(** X23. A batch over the locale list L spawns at most two children per
    element of L, and at least two for every verdict with status success
    that it returns. *)
Theorem batch_spawns_two_children_per_locale self T pf L jobs w :
  ∃ results F new,
    run_all_tests self T pf (Some L) jobs w
    = (Ret results, World F (trace w ++ new))
    ∧ (2 * successes results <= spawns new)%nat
    ∧ (spawns new <= 2 * length L)%nat.
Proof.
  unfold run_all_tests.
  destruct (run_all_loop_spec self T pf jobs L 0%nat [] w)
    as (vs & w' & Heach & _ & ->).
  destruct (run_each_spawns self T pf jobs L 0%nat w)
    as (vs' & F & new & Heach' & Hlo & Hhi).
  rewrite Heach in Heach'. injection Heach' as <- ->.
  eexists _, _, _. split; [reflexivity|]. split; [|exact Hhi].
  pose proof (successes_fold L vs []). simpl in *. lia.
Qed.

(** ** The report of a whole run *)

Lemma generate_report_world self results clock w :
  ∃ r out,
    generate_report self results clock None w
    = (out,
       World (<[report_file self := Data (LoadOk (report_value r))]> (fs w))
             (trace w ++ [AWriteReport (report_file self)]))
    ∧ r_results r = results
    ∧ r_tutorial r = tutorial_name self
    ∧ r_timestamp r = clock
    ∧ total_tests (r_summary r) = Z.of_nat (length results).
Proof.
  unfold generate_report, truediv, write_json. munfold.
  set (rate := if Z.ltb 0 (Z.of_nat (length results)) then _ else _).
  assert (Hrate : ∃ q, ∀ w2 : world, rate w2 = (Ret q, w2)).
  { subst rate. destruct (length results) as [|n]; [by eexists|].
    replace (Z.ltb 0 (Z.of_nat (S n))) with true
      by (symmetry; apply Z.ltb_lt; lia).
    replace (Z.eqb (Z.of_nat (S n)) 0) with false
      by (symmetry; apply Z.eqb_neq; lia).
    by eexists. }
  destruct Hrate as [q Hq]. rewrite Hq. cbn [fs trace].
  eexists (Report (tutorial_name self) clock (Summary _ _ _ q) results).
  match goal with
  | |- context [print_results results ?w0] =>
      destruct (print_results_outcome results w0) as [[_ ->]|[_ [msg ->]]]
  end; eexists; repeat split.
Qed.

(** X24. Whenever the batch is reached and the report can be written,
    the report is on disk when [main] ends, whatever the exit code: it
    holds the verdicts of the batch, the runner's tutorial name and the
    clock reading, and it is written before any result line is
    formatted, so a formatting fault (exit code 3) does not lose it. *)
Theorem main_leaves_the_report_on_disk a b w self :
  is_Some (fs w !! slicer_path a) →
  __init__ (slicer_path a) (tutorial a) (output a) b w = (Ret self, w) →
  b_report_write b = None →
  ∃ r w1,
    run_all_tests self (timeout a) (b_platform b) (Some (languages a))
      (b_jobs b) w = (Ret (r_results r), w1)
    ∧ fs (snd (main a b w)) = <[report_file self
                                 := Data (LoadOk (report_value r))]> (fs w1)
    ∧ r_tutorial r = tutorial_name self
    ∧ r_timestamp r = b_report_time b
    ∧ total_tests (r_summary r) = Z.of_nat (length (r_results r)).
Proof.
  intros Hexe Hinit Hwrite.
  destruct (run_all_tests_total self (timeout a) (b_platform b) (languages a)
              (b_jobs b) w) as (results & w1 & Hrun).
  destruct (generate_report_world self results (b_report_time b) w1)
    as (r & out & Hgen & Hres & Htut & Htime & Htotal).
  exists r, w1. rewrite Hres.
  split; [exact Hrun|]. split; [|by repeat split].
  unfold main. munfold. cbn [fs].
  rewrite (bool_decide_eq_true_2 _ Hexe). cbn [negb].
  rewrite Hinit, Hrun, Hwrite, Hgen.
  destruct out as [r'|[msg|code]]; [|reflexivity|reflexivity].
  destruct (num_eqb _ 100); [|destruct (num_geb _ 50)]; reflexivity.
Qed.

Lemma main_leaves_the_report_on_disk_witness :
  ∃ r w1,
    run_all_tests Scenario.self 300 "Linux" (Some ["pt-BR"])
      (Scenario.all_good ["pt-BR"]) Scenario.w0 = (Ret (r_results r), w1)
    ∧ fs (snd (main (Scenario.args_of ["pt-BR"])
                 (Scenario.batch_of (Scenario.all_good ["pt-BR"]) None)
                 Scenario.w0))
      = <[report_file Scenario.self := Data (LoadOk (report_value r))]> (fs w1)
    ∧ r_tutorial r = "TestTutorial"
    ∧ r_timestamp r = 1700000100%Q
    ∧ total_tests (r_summary r) = Z.of_nat (length (r_results r)).
Proof.
  refine (main_leaves_the_report_on_disk (Scenario.args_of ["pt-BR"])
            (Scenario.batch_of (Scenario.all_good ["pt-BR"]) None)
            Scenario.w0 Scenario.self _ eq_refl eq_refl).
  vm_compute. eexists. reflexivity.
Defined.
